(** * Client script for the order book / margin contracts (src/index.ts)

    The script is a sequential orchestration of library and JSON-RPC calls.
    It is embedded as programs over a signature of requests ([request]):
    every call that leaves the script (web3 constructors, the wallet, the
    console, and the four kinds of network round trips) is a node of the
    program tree, and a program is run against an arbitrary handler that
    plays the library and the chain, producing the trace of requests with
    their answers and the outcome (returned value or thrown error). *)

From Stdlib Require Import ZArith String Ascii List Bool Lia.
From Stdlib Require Import DecimalString DecimalFacts DecimalPos.
From stdpp Require Import gmap strings.

Import ListNotations.
Local Open Scope string_scope.
Local Open Scope list_scope.
Local Open Scope Z_scope.

(** ** JavaScript primitives used by the script *)

Module JS.

(** [bigint.prototype.toString()]: decimal rendering, "-" for negatives. *)
Definition toString (n : Z) : string := NilZero.string_of_int (Z.to_int n).

(** Truthiness of a bigint: only [0n] is falsy. *)
Definition truthy (n : Z) : bool := negb (n =? 0).

(** Truthiness of [process.env.X], a [string | undefined]: [undefined] and
    the empty string are falsy. *)
Definition truthy_env (v : option string) : bool :=
  match v with
  | Some s => negb (String.eqb s EmptyString)
  | None => false
  end.

(** The string read from [process.env.X] once it is known to be truthy. *)
Definition str (v : option string) : string :=
  match v with Some s => s | None => EmptyString end.

(** [s1 < s2] on two strings: comparison by code units, lexicographic. *)
Definition lt (s1 s2 : string) : bool := String.ltb s1 s2.

(** [s1 != s2] on two strings. *)
Definition neq (s1 s2 : string) : bool := negb (String.eqb s1 s2).

(** A string holds the UTF-8 bytes of the JavaScript string. The code
    points stripped by [String.prototype.trim] are the WhiteSpace and
    LineTerminator of ECMAScript, here each as its UTF-8 bytes: TAB, LF,
    VT, FF, CR, SPACE, U+00A0, U+1680, U+2000 to U+200A, U+2028, U+2029,
    U+202F, U+205F, U+3000 and U+FEFF. *)
Definition white_space : list (list N) :=
  [[9]; [10]; [11]; [12]; [13]; [32];
   [194; 160];
   [225; 154; 128];
   [226; 128; 128]; [226; 128; 129]; [226; 128; 130]; [226; 128; 131];
   [226; 128; 132]; [226; 128; 133]; [226; 128; 134]; [226; 128; 135];
   [226; 128; 136]; [226; 128; 137]; [226; 128; 138];
   [226; 128; 168]; [226; 128; 169];
   [226; 128; 175];
   [226; 129; 159];
   [227; 128; 128];
   [239; 187; 191]]%N.

Definition codes (s : string) : list N :=
  map N_of_ascii (list_ascii_of_string s).

Definition of_codes (l : list N) : string :=
  string_of_list_ascii (map ascii_of_N l).

(** [l] without its prefix [p], when it starts with [p]. *)
Fixpoint strip_prefix (p l : list N) : option (list N) :=
  match p, l with
  | [], _ => Some l
  | a :: p', b :: l' => if (a =? b)%N then strip_prefix p' l' else None
  | _ :: _, [] => None
  end.

(** [l] without the white-space code point it starts with, if any. *)
Fixpoint strip_any (ws : list (list N)) (l : list N) : option (list N) :=
  match ws with
  | [] => None
  | p :: ws' =>
      match strip_prefix p l with
      | Some r => Some r
      | None => strip_any ws' l
      end
  end.

(** Strips leading white space; every step removes a byte at least, so a
    fuel of the length of [l] is enough. *)
Fixpoint drop_white (ws : list (list N)) (fuel : nat) (l : list N)
  : list N :=
  match fuel with
  | O => l
  | S fuel' =>
      match strip_any ws l with
      | Some r => drop_white ws fuel' r
      | None => l
      end
  end.

Definition trim_start (s : string) : string :=
  of_codes (drop_white white_space (length (codes s)) (codes s)).

(** Trailing white space is leading white space of the reversed bytes,
    each code point with its bytes reversed. *)
Definition trim_end (s : string) : string :=
  of_codes
    (rev (drop_white (map (@rev N) white_space) (length (codes s))
            (rev (codes s)))).

Definition trim (s : string) : string := trim_end (trim_start s).

(** Value of one hexadecimal digit. *)
Definition hex_digit (c : ascii) : option N :=
  let n := N_of_ascii c in
  if ((48 <=? n) && (n <=? 57))%N then Some (n - 48)%N
  else if ((97 <=? n) && (n <=? 102))%N then Some (n - 87)%N
  else if ((65 <=? n) && (n <=? 70))%N then Some (n - 55)%N
  else None.

(** [Buffer.from(s, "hex")]: decodes pairs of hexadecimal digits and stops
    at the first pair that is not one (a trailing single digit is dropped). *)
Fixpoint Buffer_from_hex (s : string) : list ascii :=
  match s with
  | String h (String l r) =>
      match hex_digit h, hex_digit l with
      | Some a, Some b => ascii_of_N (16 * a + b) :: Buffer_from_hex r
      | _, _ => []
      end
  | _ => []
  end.

End JS.

(** ** web3 utilities *)

Module Utils.

(** Units of [web3.utils.toWei]; the script only uses "ether". *)
Inductive EtherUnit := wei | gwei | ether.

Definition decimals (u : EtherUnit) : nat :=
  match u with wei => 0 | gwei => 9 | ether => 18 end%nat.

(** Splits a decimal numeral at its first dot. *)
Fixpoint split_dot (s : string) : string * string :=
  match s with
  | EmptyString => (EmptyString, EmptyString)
  | String c r =>
      if Ascii.eqb c "." then (EmptyString, r)
      else let (i, f) := split_dot r in (String c i, f)
  end.

(** The fractional digits, cut or padded with zeros to [n] digits. *)
Fixpoint pad_right (n : nat) (s : string) : string :=
  match n with
  | O => EmptyString
  | S n' =>
      match s with
      | EmptyString => String "0" (pad_right n' EmptyString)
      | String c r => String c (pad_right n' r)
      end
  end.

Fixpoint digits_value (acc : Z) (s : string) : Z :=
  match s with
  | EmptyString => acc
  | String c r => digits_value (10 * acc + (Z.of_N (N_of_ascii c) - 48)) r
  end.

(** [web3.utils.toWei(number, unit).toString()] on a non-negative decimal
    numeral; a numeric argument is first rendered by [String(number)]
    ([0.1] as "0.1", [2] as "2", [1] as "1"). The result is the decimal
    string of [number * 10^decimals]. *)
Definition toWei (number : string) (u : EtherUnit) : string :=
  let (i, f) := split_dot number in
  JS.toString (digits_value 0 (i +:+ pad_right (decimals u) f)).

End Utils.

(** ** Data model *)

(** The ABI tables of src/assets: a binding is an (ABI, address) pair. *)
Inductive Abi := OrderBook | Margin | ProtocolVault | ERC20.

Record Contract := { abi : Abi; options_address : string }.

(** Arguments handed to a contract method or to the ABI coder. *)
Inductive arg :=
| AStr (s : string)
| ANum (n : Z)
| ABool (b : bool).

(** [contract.methods.<method>(<args>)]. *)
Record MethodCall := { method : string; args : list arg }.

(** The object literal passed to [estimateGas] / [send]: its fields in
    source order. *)
Definition Options := list (string * string).

Record Receipt := { transactionHash : string }.

Record MakerTransactionData := {
  makerAddress : string;
  price : string;
  amount : string;
  isBuy : bool
}.

Record Account := { address : string; mnemonic : list ascii }.

Record Web3 := { provider : string }.

Inductive logged :=
| LStr (s : string)
| LReceipt (r : Receipt).

(** ** Requests leaving the script *)

Inductive request :=
| NewWeb3 (rpc : string)
| NewContract (a : Abi) (addr : string)
| WalletAdd (privateKey : string)
| ConsoleLog (v : logged)
| EstimateGas (c : Contract) (m : MethodCall) (opts : Options)
| GetTransactionCount (addr : string)
| CallMethod (c : Contract) (m : MethodCall)
| SendMethod (c : Contract) (m : MethodCall) (opts : Options).

(** What each request answers: the wallet answers the address of
    [addedAccount[0]]; gas estimates, transaction counts and the allowance
    are bigints. *)
Definition answer (r : request) : Type :=
  match r with
  | NewWeb3 _ | NewContract _ _ | ConsoleLog _ => unit
  | WalletAdd _ => string
  | EstimateGas _ _ _ | GetTransactionCount _ | CallMethod _ _ => Z
  | SendMethod _ _ _ => Receipt
  end.

(** The round trips to the node. *)
Definition is_network (r : request) : bool :=
  match r with
  | EstimateGas _ _ _ | GetTransactionCount _ | CallMethod _ _
  | SendMethod _ _ _ => true
  | _ => false
  end.

Definition is_send (r : request) : bool :=
  match r with SendMethod _ _ _ => true | _ => false end.

Inductive outcome (A : Type) :=
| Ok (a : A)
| Err (e : string).
Arguments Ok {A} a.
Arguments Err {A} e.

(** ** Programs *)

Inductive prog (A : Type) : Type :=
| Ret (a : A)
| Throw (e : string)
| Vis (r : request) (k : answer r -> prog A).
Arguments Ret {A} a.
Arguments Throw {A} e.
Arguments Vis {A} r k.

Fixpoint bind {A B : Type} (p : prog A) (f : A -> prog B) : prog B :=
  match p with
  | Ret a => f a
  | Throw e => Throw e
  | Vis r k => Vis r (fun x => bind (k x) f)
  end.

Notation "x <- c ;; k" := (bind c (fun x => k))
  (at level 100, c at next level, right associativity).
Notation "c ;; k" := (bind c (fun _ => k))
  (at level 100, right associativity).

Definition perform (r : request) : prog (answer r) := Vis r Ret.

(** ** Running a program against a library and chain *)

Definition handler (W : Type) : Type :=
  forall r : request, W -> outcome (answer r) * W.

Record entry := Entry { req : request; ans : outcome (answer req) }.

Definition failed (e : entry) : bool :=
  match ans e with Ok _ => false | Err _ => true end.

Fixpoint run {W A : Type} (h : handler W) (p : prog A) (w : W)
  : list entry * outcome A * W :=
  match p with
  | Ret a => ([], Ok a, w)
  | Throw e => ([], Err e, w)
  | Vis r k =>
      match h r w with
      | (Ok x, w') =>
          let '(tr, res, w'') := run h (k x) w' in
          (Entry r (Ok x) :: tr, res, w'')
      | (Err e, w') => ([Entry r (Err e)], Err e, w')
      end
  end.

Definition trace {W A : Type} (h : handler W) (p : prog A) (w : W)
  : list entry := fst (fst (run h p w)).

Definition result {W A : Type} (h : handler W) (p : prog A) (w : W)
  : outcome A := snd (fst (run h p w)).

(** ** The web3 functions that are pure in their arguments

    [isAddress] (web3-validator, checksum included), the ABI coder
    [web3.eth.abi.encodeParameters] and [method.encodeABI()] belong to the
    library, not to this repository: the script is parametric in them. *)

Class Web3Lib := {
  isAddress : string -> bool;
  encodeParameters : list string -> list arg -> string;
  encodeABI : Contract -> MethodCall -> string
}.

(** What [initWeb3] returns. *)
Record Client := {
  web3 : Web3;
  account : Account;
  margin : Contract;
  orderBook : Contract;
  protocolVault : Contract
}.

Section Script.

Context {lib : Web3Lib}.

(** [process.env] after [dotenv.config]. *)
Variable process_env : gmap string string.

Definition throw {A : Type} (msg : string) : prog A := Throw msg.

(** [new Web3(new HttpProvider(rpc))] *)
Definition newWeb3 (rpc : string) : prog Web3 :=
  perform (NewWeb3 rpc) ;; Ret {| provider := rpc |}.

(** [new web3.eth.Contract(abi, addr)] *)
Definition newContract (a : Abi) (addr : string) : prog Contract :=
  perform (NewContract a addr) ;;
  Ret {| abi := a; options_address := addr |}.

Definition estimateGas (c : Contract) (m : MethodCall) (opts : Options)
  : prog Z := perform (EstimateGas c m opts).

Definition getTransactionCount (addr : string) : prog Z :=
  perform (GetTransactionCount addr).

Definition call (c : Contract) (m : MethodCall) : prog Z :=
  perform (CallMethod c m).

Definition send (c : Contract) (m : MethodCall) (opts : Options)
  : prog Receipt := perform (SendMethod c m opts).

Definition console_log (v : logged) : prog unit := perform (ConsoleLog v).

Definition initWeb3 : prog Client :=
  web3 <- (if JS.truthy_env (process_env !! "RPC_ENDPOINT")
           then newWeb3 (JS.str (process_env !! "RPC_ENDPOINT"))
           else throw "Provide a valid RPC_ENDPOINT") ;;
  if negb (JS.truthy_env (process_env !! "ORDER_BOOK_ADDRESS"))
     || negb (JS.truthy_env (process_env !! "MARGIN_ADDRESS"))
     || negb (JS.truthy_env (process_env !! "PROTOCOL_VAULT_ADDRESS"))
  then throw "Please Provide Contract Address"
  else
  orderBook <- newContract OrderBook
                 (JS.str (process_env !! "ORDER_BOOK_ADDRESS")) ;;
  margin <- newContract Margin (JS.str (process_env !! "MARGIN_ADDRESS")) ;;
  protocolVault <- newContract ProtocolVault
                     (JS.str (process_env !! "PROTOCOL_VAULT_ADDRESS")) ;;
  if negb (JS.truthy_env (process_env !! "MAKER_ADDRESS"))
     || negb (isAddress (JS.str (process_env !! "MAKER_ADDRESS")))
  then throw "Please Provide Valid Maker Address "
  else
  if negb (JS.truthy_env (process_env !! "PRIVATE_KEY"))
  then throw "Please Provide valid Private Key"
  else
  addedAccount0 <- perform
    (WalletAdd (JS.trim (JS.str (process_env !! "PRIVATE_KEY")))) ;;
  if JS.neq addedAccount0 (JS.str (process_env !! "MAKER_ADDRESS"))
  then throw "Invalid MNEMONIC and Maker Address differ"
  else
  console_log (LStr ("Added Account " +:+ addedAccount0)) ;;
  let account :=
    {| address := addedAccount0;
       mnemonic :=
         JS.Buffer_from_hex (JS.trim (JS.str (process_env !! "PRIVATE_KEY")))
    |} in
  Ret {| web3 := web3; account := account; margin := margin;
         orderBook := orderBook; protocolVault := protocolVault |}.

Definition addMakerOrder (web3 : Web3) (account : Account)
  (orderBook : Contract) : prog unit :=
  let makerTransactionData :=
    {| amount := Utils.toWei "0.1" Utils.ether;
       isBuy := true;
       makerAddress := address account;
       price := Utils.toWei "2" Utils.ether |} in
  let parameters :=
    encodeParameters ["address"; "uint256"; "uint256"; "bool"]
      [AStr (makerAddress makerTransactionData);
       AStr (amount makerTransactionData);
       AStr (price makerTransactionData);
       ABool (isBuy makerTransactionData)] in
  gasEstimate <- estimateGas orderBook
    {| method := "addMakerOrder"; args := [AStr parameters] |}
    [("from", address account)] ;;
  if negb (JS.truthy gasEstimate) then throw " Estimate Gas Failed "
  else
  let encodedParameters :=
    encodeABI orderBook
      {| method := "addMakerOrder"; args := [AStr parameters] |} in
  nonce <- getTransactionCount (address account) ;;
  receit <- send orderBook
    {| method := "addMakerOrder"; args := [AStr parameters] |}
    [("from", address account); ("nonce", JS.toString nonce)] ;;
  console_log
    (LStr ("Transaction Mined with Hash : " +:+ transactionHash receit)).

Definition removeMakerOrder (web3 : Web3) (account : Account)
  (orderBook : Contract) : prog unit :=
  let makerOrderId := 123 in
  estimatedGas <- estimateGas orderBook
    {| method := "removeOrder"; args := [ANum makerOrderId] |} [] ;;
  if negb (JS.truthy estimatedGas) then throw "Cannot Estimate Gas"
  else
  nonce <- getTransactionCount (address account) ;;
  send orderBook
    {| method := "removeOrder"; args := [ANum makerOrderId] |}
    [("from", address account); ("nonce", JS.toString nonce);
     ("type", "0x02")] ;;
  Ret tt.

Definition depositMarginWETH (web3 : Web3) (account : Account)
  (protocolVault : Contract) : prog unit :=
  estimatedGas <- estimateGas protocolVault
    {| method := "receiveDepositWETH";
       args := [AStr (Utils.toWei "1" Utils.ether)] |}
    [("from", address account)] ;;
  if negb (JS.truthy estimatedGas) then throw "Failed to Estimate Gas"
  else
  nonce <- getTransactionCount (address account) ;;
  receit <- send protocolVault
    {| method := "receiveDepositWETH";
       args := [AStr (Utils.toWei "1" Utils.ether)] |}
    [("from", address account); ("type", "0x02");
     ("nonce", JS.toString nonce)] ;;
  console_log (LReceipt receit).

Definition tokenAddress : string := "0x000000000000000000000000000000".

(** The ternary on [process.env.PROTOCOL_VAULT_ADDRESS]: the variable when
    it is truthy, the empty string otherwise. *)
Definition vault_or_empty : string :=
  if JS.truthy_env (process_env !! "PROTOCOL_VAULT_ADDRESS")
  then JS.str (process_env !! "PROTOCOL_VAULT_ADDRESS") else EmptyString.

Definition depositMarginOtherToken (web3 : Web3) (account : Account)
  (protocolVault : Contract) : prog unit :=
  erc20 <- newContract ERC20 tokenAddress ;;
  approval <- call erc20
    {| method := "allowance";
       args := [AStr (address account); AStr vault_or_empty] |} ;;
  (if JS.lt (JS.toString approval) (Utils.toWei "1" Utils.ether)
   then
     nonce <- getTransactionCount (address account) ;;
     send erc20
       {| method := "approve";
          args := [AStr vault_or_empty;
                   AStr (Utils.toWei "1" Utils.ether)] |}
       [("from", address account); ("type", "0x02");
        ("nonce", JS.toString nonce)] ;;
     Ret tt
   else Ret tt) ;;
  estimatedGas <- estimateGas protocolVault
    {| method := "receiveDepositInOtherToken";
       args := [AStr tokenAddress; AStr (Utils.toWei "1" Utils.ether)] |}
    [] ;;
  if negb (JS.truthy estimatedGas) then throw "Failed to Estimate Gas"
  else
  nonce <- getTransactionCount (address account) ;;
  send protocolVault
    {| method := "receiveDepositInOtherToken";
       args := [AStr tokenAddress; AStr (Utils.toWei "1" Utils.ether)] |}
    [("from", address account); ("type", "0x02");
     ("nonce", JS.toString nonce)] ;;
  Ret tt.

Definition withdrawMargin (web3 : Web3) (account : Account)
  (margin : Contract) : prog unit :=
  estimatedGas <- estimateGas margin
    {| method := "withdraw";
       args := [AStr (Utils.toWei "1" Utils.ether)] |} [] ;;
  if negb (JS.truthy estimatedGas) then throw "Failed to Estimate Gas"
  else
  nonce <- getTransactionCount (address account) ;;
  send margin
    {| method := "withdraw";
       args := [AStr (Utils.toWei "1" Utils.ether)] |}
    [("from", address account); ("type", "0x02");
     ("nonce", JS.toString nonce)] ;;
  Ret tt.

Definition main : prog unit :=
  c <- initWeb3 ;;
  addMakerOrder (web3 c) (account c) (orderBook c).

(** [main().then((value) => console.log("Finished Execution "))]: the
    callback only runs when [main] returned; a rejection is left
    unhandled. *)
Definition script : prog unit :=
  main ;; console_log (LStr "Finished Execution ").

(** The five operations of the script. *)
Inductive operation :=
| OpAddMakerOrder
| OpRemoveMakerOrder
| OpDepositMarginWETH
| OpDepositMarginOtherToken
| OpWithdrawMargin.

Definition run_operation (op : operation) (web3 : Web3) (account : Account)
  (c : Contract) : prog unit :=
  match op with
  | OpAddMakerOrder => addMakerOrder web3 account c
  | OpRemoveMakerOrder => removeMakerOrder web3 account c
  | OpDepositMarginWETH => depositMarginWETH web3 account c
  | OpDepositMarginOtherToken => depositMarginOtherToken web3 account c
  | OpWithdrawMargin => withdrawMargin web3 account c
  end.

End Script.

Arguments Utils.toWei : simpl never.
Arguments JS.toString : simpl never.
Arguments JS.lt : simpl never.
Arguments JS.truthy : simpl never.
Arguments JS.truthy_env : simpl never.
Arguments JS.str : simpl never.
Arguments JS.trim : simpl never.
Arguments JS.neq : simpl never.
Arguments JS.Buffer_from_hex : simpl never.

(** ** Vocabulary on traces *)

(** Field of an object literal. *)
Fixpoint field (k : string) (o : Options) : option string :=
  match o with
  | [] => None
  | (k', v) :: rest => if String.eqb k k' then Some v else field k rest
  end.

Definition requests (tr : list entry) : list request := map req tr.

(** The transactions submitted in a trace, in order. *)
Definition sends (tr : list entry) : list request :=
  List.filter is_send (requests tr).

Definition method_of (r : request) : string :=
  match r with
  | EstimateGas _ m _ | CallMethod _ m | SendMethod _ m _ => method m
  | _ => EmptyString
  end.

(** Submissions of the method [name]. *)
Definition sends_of (name : string) (tr : list entry) : list request :=
  List.filter (fun r => String.eqb (method_of r) name) (sends tr).

(** The logical steps of an operation: a request without its data. *)
Inductive step_kind :=
| KNewWeb3
| KNewContract (a : Abi)
| KWalletAdd
| KLog
| KEstimate (name : string)
| KNonce
| KCall (name : string)
| KSend (name : string).

Definition kind_of (r : request) : step_kind :=
  match r with
  | NewWeb3 _ => KNewWeb3
  | NewContract a _ => KNewContract a
  | WalletAdd _ => KWalletAdd
  | ConsoleLog _ => KLog
  | EstimateGas _ m _ => KEstimate (method m)
  | GetTransactionCount _ => KNonce
  | CallMethod _ m => KCall (method m)
  | SendMethod _ m _ => KSend (method m)
  end.

(** The linear sequences of the operations; the alternate-token deposit has
    two, with and without the approval. *)
Definition plans (op : operation) : list (list step_kind) :=
  match op with
  | OpAddMakerOrder =>
      [[KEstimate "addMakerOrder"; KNonce; KSend "addMakerOrder"; KLog]]
  | OpRemoveMakerOrder =>
      [[KEstimate "removeOrder"; KNonce; KSend "removeOrder"]]
  | OpDepositMarginWETH =>
      [[KEstimate "receiveDepositWETH"; KNonce; KSend "receiveDepositWETH";
        KLog]]
  | OpDepositMarginOtherToken =>
      [[KNewContract ERC20; KCall "allowance"; KNonce; KSend "approve";
        KEstimate "receiveDepositInOtherToken"; KNonce;
        KSend "receiveDepositInOtherToken"];
       [KNewContract ERC20; KCall "allowance";
        KEstimate "receiveDepositInOtherToken"; KNonce;
        KSend "receiveDepositInOtherToken"]]
  | OpWithdrawMargin =>
      [[KEstimate "withdraw"; KNonce; KSend "withdraw"]]
  end.

Definition script_plan : list step_kind :=
  [KNewWeb3; KNewContract OrderBook; KNewContract Margin;
   KNewContract ProtocolVault; KWalletAdd; KLog;
   KEstimate "addMakerOrder"; KNonce; KSend "addMakerOrder"; KLog; KLog].

(** The transaction count answered at an entry, if it is a successful
    lookup for [addr]. *)
Definition count_answered (addr : string) (e : entry) : option Z :=
  match e with
  | Entry r a =>
      match r return outcome (answer r) -> option Z with
      | GetTransactionCount addr' =>
          fun a =>
            match a with
            | Ok n => if String.eqb addr' addr then Some n else None
            | Err _ => None
            end
      | _ => fun _ => None
      end a
  end.

(** The gas estimate answered at an entry, if it is a successful estimation. *)
Definition gas_answered (e : entry) : option Z :=
  match e with
  | Entry r a =>
      match r return outcome (answer r) -> option Z with
      | EstimateGas _ _ _ =>
          fun a => match a with Ok g => Some g | Err _ => None end
      | _ => fun _ => None
      end a
  end.

(** The allowance answered at an entry, if it is a successful call. *)
Definition allowance_answered (e : entry) : option Z :=
  match e with
  | Entry r a =>
      match r return outcome (answer r) -> option Z with
      | CallMethod _ _ =>
          fun a => match a with Ok g => Some g | Err _ => None end
      | _ => fun _ => None
      end a
  end.

(** The address answered by the wallet at an entry. *)
Definition derived_address (e : entry) : option string :=
  match e with
  | Entry r a =>
      match r return outcome (answer r) -> option string with
      | WalletAdd _ =>
          fun a => match a with Ok d => Some d | Err _ => None end
      | _ => fun _ => None
      end a
  end.

(** Nonce freshness at position [i] of a trace, for the sender [from]: a
    submission at [i] has the lookup of [from]'s transaction count right
    before it, at [i - 1], and carries its answer as nonce. *)
Definition fresh_nonce_at (from : string) (tr : list entry) (i : nat) : Prop :=
  forall e c m opts,
    tr !! i = Some e -> req e = SendMethod c m opts ->
    exists j e' n,
      i = S j /\ tr !! j = Some e' /\ count_answered from e' = Some n /\
      field "from" opts = Some from /\
      field "nonce" opts = Some (JS.toString n).

(** A lookup at position [j] serves the submission at [j + 1] only: it is
    followed by a submission or ends the trace. *)
Definition count_used_once_at (tr : list entry) (j : nat) : Prop :=
  forall e addr,
    tr !! j = Some e -> req e = GetTransactionCount addr ->
    match tr !! S j with
    | Some e' => is_send (req e') = true
    | None => failed e = true
    end.

Definition returned {A : Type} (o : outcome A) : bool :=
  match o with Ok _ => true | Err _ => false end.

(** A run follows the linear sequence [plan]: its requests are, in order,
    the first steps of [plan], all of them when the run returned. *)
Definition follows {A : Type} (plan : list step_kind) (tr : list entry)
  (res : outcome A) : Prop :=
  map kind_of (requests tr) `prefix_of` plan /\
  (returned res = true -> map kind_of (requests tr) = plan).

(** A failed request ends the run and its error is the outcome. *)
Definition errors_propagate {A : Type} (tr : list entry) (res : outcome A)
  : Prop :=
  forall i e, tr !! i = Some e -> failed e = true ->
    S i = length tr /\ exists msg, ans e = Err msg /\ res = Err msg.

(** The contract and method a request is about. *)
Definition calls_method (r : request) : option (Contract * MethodCall) :=
  match r with
  | EstimateGas c m _ | CallMethod c m | SendMethod c m _ => Some (c, m)
  | _ => None
  end.

(** ** Addresses *)

Definition is_hex (c : ascii) : bool :=
  match JS.hex_digit c with Some _ => true | None => false end.

Fixpoint all_hex (s : string) : bool :=
  match s with
  | EmptyString => true
  | String c r => is_hex c && all_hex r
  end.

(** A 20-byte account in hexadecimal: "0x" and forty digits. *)
Definition well_formed_address (s : string) : bool :=
  match s with
  | String "0" (String "x" r) => (String.length r =? 40)%nat && all_hex r
  | _ => false
  end.

Definition to_lower_ascii (c : ascii) : ascii :=
  let n := N_of_ascii c in
  if ((65 <=? n) && (n <=? 90))%N then ascii_of_N (n + 32) else c.

Fixpoint to_lower (s : string) : string :=
  match s with
  | EmptyString => EmptyString
  | String c r => String (to_lower_ascii c) (to_lower r)
  end.

(** Two hexadecimal strings that denote the same account: equal up to the
    case of their letters. *)
Definition same_account (a b : string) : Prop := to_lower a = to_lower b.

(** ** Configuration *)

Definition required_variables : list string :=
  ["RPC_ENDPOINT"; "ORDER_BOOK_ADDRESS"; "MARGIN_ADDRESS";
   "PROTOCOL_VAULT_ADDRESS"; "MAKER_ADDRESS"; "PRIVATE_KEY"].

(** The errors [initWeb3] throws on a bad configuration. *)
Definition configuration_errors : list string :=
  ["Provide a valid RPC_ENDPOINT"; "Please Provide Contract Address";
   "Please Provide Valid Maker Address "; "Please Provide valid Private Key"].

Definition mismatch_error : string :=
  "Invalid MNEMONIC and Maker Address differ".

(** ** Gas estimation *)

(** The error an operation throws when its gas estimate is falsy. *)
Definition gas_error (op : operation) : string :=
  match op with
  | OpAddMakerOrder => " Estimate Gas Failed "
  | OpRemoveMakerOrder => "Cannot Estimate Gas"
  | _ => "Failed to Estimate Gas"
  end.

(** The short circuit as the specification words it, on one run: a falsy
    estimate makes the operation throw with no submission in the run. *)
Definition no_submission_on_gas_failure {A : Type} (tr : list entry)
  (res : outcome A) : Prop :=
  forall e g,
    In e tr -> gas_answered e = Some g -> JS.truthy g = false ->
    returned res = false /\ sends tr = [].

(** The estimate only decides whether the operation goes on: the rest of a
    program is the same for any two estimates that are not zero. *)
Fixpoint gas_blind {A : Type} (p : prog A) : Prop :=
  match p with
  | Ret _ | Throw _ => True
  | Vis r k =>
      (forall x, gas_blind (k x)) /\
      match r return (answer r -> prog A) -> Prop with
      | EstimateGas _ _ _ =>
          fun k => forall g1 g2 : Z, g1 <> 0 -> g2 <> 0 -> k g1 = k g2
      | _ => fun _ => True
      end k
  end.

(** The handler [h] with every gas estimate [g] it answers replaced by
    [f g]; the chain evolves as under [h]. *)
Definition retune {W : Type} (f : Z -> Z) (h : handler W) : handler W :=
  fun r =>
    match r return (W -> outcome (answer r) * W) -> W -> outcome (answer r) * W
    with
    | EstimateGas _ _ _ =>
        fun hr w =>
          match hr w with
          | (Ok g, w') => (Ok (f g), w')
          | (Err e, w') => (Err e, w')
          end
    | _ => fun hr => hr
    end (h r).

(** The fields a submitted request carries: sender, nonce and type, hence
    no gas limit. *)
Definition no_gas_field (r : request) : Prop :=
  match r with
  | SendMethod _ _ opts =>
      forall k v, In (k, v) opts -> k = "from" \/ k = "nonce" \/ k = "type"
  | _ => True
  end.

(** ** Allowance *)

(** The deposit amount of the alternate-token deposit, [1 * 10^18]. *)
Definition deposit_amount : Z := 1 * 10 ^ 18.

(** The top-up rule as the specification words it, on a run in which the
    allowance call answered [a]: one approval when [a] is below the deposit
    amount, none otherwise. *)
Definition tops_up_as_specified (tr : list entry) (a : Z) : Prop :=
  (a < deposit_amount -> length (sends_of "approve" tr) = 1%nat) /\
  (deposit_amount <= a -> sends_of "approve" tr = []).

(** What a request of the alternate-token deposit does with the token
    address: the ERC-20 binding is built and called at the literal, and the
    deposit method receives the literal as its first parameter. *)
Definition uses_token_literal (r : request) : Prop :=
  match r with
  | NewContract a addr => a = ERC20 /\ addr = tokenAddress
  | CallMethod c _ => c = {| abi := ERC20; options_address := tokenAddress |}
  | EstimateGas _ m _ =>
      method m = "receiveDepositInOtherToken" /\
      hd_error (args m) = Some (AStr tokenAddress)
  | SendMethod c m _ =>
      (method m = "approve" /\
       c = {| abi := ERC20; options_address := tokenAddress |}) \/
      (method m = "receiveDepositInOtherToken" /\
       hd_error (args m) = Some (AStr tokenAddress))
  | _ => True
  end.

(** ** A mock library and chain, for concrete runs *)

Module Mock.

Fixpoint hex_value (acc : Z) (s : string) : Z :=
  match s with
  | EmptyString => acc
  | String c r =>
      match JS.hex_digit c with
      | Some d => hex_value (16 * acc + Z.of_N d) r
      | None => acc
      end
  end.

Definition hex_char (d : Z) : ascii :=
  if d <? 10 then ascii_of_N (Z.to_N (48 + d))
  else ascii_of_N (Z.to_N (87 + d)).

(** [n] hexadecimal digits of [z], most significant first. *)
Fixpoint hex_digits (n : nat) (z : Z) : string :=
  match n with
  | O => EmptyString
  | S n' => hex_digits n' (z / 16) +:+ String (hex_char (z mod 16)) EmptyString
  end.

(** One 32-byte word of the ABI encoding of a static value. *)
Definition abi_word (ty : string) (v : arg) : string :=
  match v with
  | AStr s =>
      if String.eqb ty "address"
      then hex_digits 64 (hex_value 0 (String.substring 2 40 s))
      else hex_digits 64 (Utils.digits_value 0 s)
  | ANum n => hex_digits 64 n
  | ABool b => hex_digits 64 (if b then 1 else 0)
  end.

Fixpoint abi_words (tys : list string) (vs : list arg) : string :=
  match tys, vs with
  | ty :: tys', v :: vs' => abi_word ty v +:+ abi_words tys' vs'
  | _, _ => EmptyString
  end.

(** The library on well-formed input: the address check without the
    checksum rule, and the ABI coder on static types. *)
Definition lib : Web3Lib := {|
  isAddress := well_formed_address;
  encodeParameters := fun tys vs => "0x" +:+ abi_words tys vs;
  encodeABI := fun _ m => method m
|}.

(** A chain that answers a fixed allowance and gas estimate and counts the
    transactions it accepted, with a wallet that derives a fixed address. *)
Record Chain := { allowance : Z; gas : Z; derived : string }.

Definition handle (c : Chain) : handler Z :=
  fun r count =>
    match r return outcome (answer r) * Z with
    | NewWeb3 _ | NewContract _ _ | ConsoleLog _ => (Ok tt, count)
    | WalletAdd _ => (Ok (derived c), count)
    | EstimateGas _ _ _ => (Ok (gas c), count)
    | GetTransactionCount _ => (Ok count, count)
    | CallMethod _ _ => (Ok (allowance c), count)
    | SendMethod _ _ _ => (Ok {| transactionHash := "0xfeed" |}, count + 1)
    end.

(** The account of the private key [1], in checksum case and in lower
    case. *)
Definition maker : string := "0x7E5F4552091A69125d5DfCb7b8C2659029395Bdf".

Definition maker_lower : string :=
  "0x7e5f4552091a69125d5dfcb7b8c2659029395bdf".

Definition other : string := "0x2B5AD5c4795c026514f8317c7a215E218DcCD6cF".

Definition key : string :=
  "0000000000000000000000000000000000000000000000000000000000000001".

Definition env_of (maker_address : string) : gmap string string :=
  <["RPC_ENDPOINT" := "http://localhost:8545"]>
  (<["ORDER_BOOK_ADDRESS" := "0x1111111111111111111111111111111111111111"]>
  (<["MARGIN_ADDRESS" := "0x2222222222222222222222222222222222222222"]>
  (<["PROTOCOL_VAULT_ADDRESS" := "0x3333333333333333333333333333333333333333"]>
  (<["MAKER_ADDRESS" := maker_address]>
  (<["PRIVATE_KEY" := key]> ∅))))).

Definition env : gmap string string := env_of maker.

Definition env_without_key : gmap string string :=
  delete "PRIVATE_KEY" env.

Definition web3 : Web3 := {| provider := "http://localhost:8545" |}.

Definition account : Account :=
  {| address := maker; mnemonic := JS.Buffer_from_hex key |}.

Definition vault : Contract :=
  {| abi := ProtocolVault;
     options_address := "0x3333333333333333333333333333333333333333" |}.

Definition book : Contract :=
  {| abi := OrderBook;
     options_address := "0x1111111111111111111111111111111111111111" |}.

(** An allowance of 2 wei, gas estimates of 21000. *)
Definition small_allowance : Chain :=
  {| allowance := 2; gas := 21000; derived := maker |}.

(** No allowance, and estimations that answer zero. *)
Definition zero_gas : Chain :=
  {| allowance := 0; gas := 0; derived := maker |}.

(** The first entry of a trace. *)
Definition first_entry (tr : list entry) : entry :=
  match tr with
  | e :: _ => e
  | [] => Entry (ConsoleLog (LStr EmptyString)) (Ok tt)
  end.

Definition entry_at (i : nat) (tr : list entry) : entry :=
  first_entry (drop i tr).

End Mock.

(** ** Further vocabulary *)

(** The contract method an operation estimates and submits. *)
Definition main_method (op : operation) : string :=
  match op with
  | OpAddMakerOrder => "addMakerOrder"
  | OpRemoveMakerOrder => "removeOrder"
  | OpDepositMarginWETH => "receiveDepositWETH"
  | OpDepositMarginOtherToken => "receiveDepositInOtherToken"
  | OpWithdrawMargin => "withdraw"
  end.

(** The [type] field of the submissions of an operation: [addMakerOrder]
    sets none, the others ask for an EIP-1559 transaction. *)
Definition send_type (op : operation) : option string :=
  match op with
  | OpAddMakerOrder => None
  | _ => Some "0x02"
  end.

(** The object an operation passes to [estimateGas]: the sender for
    [addMakerOrder] and [depositMarginWETH], nothing for the others. *)
Definition estimate_options (op : operation) (account : Account) : Options :=
  match op with
  | OpAddMakerOrder | OpDepositMarginWETH => [("from", address account)]
  | _ => []
  end.

(** No request of the trace failed. *)
Definition all_answered (tr : list entry) : Prop :=
  forall e, In e tr -> failed e = false.

(** Every check of [initWeb3] on [process.env] passes. *)
Definition configured {lib : Web3Lib} (env : gmap string string) : bool :=
  JS.truthy_env (env !! "RPC_ENDPOINT")
  && JS.truthy_env (env !! "ORDER_BOOK_ADDRESS")
  && JS.truthy_env (env !! "MARGIN_ADDRESS")
  && JS.truthy_env (env !! "PROTOCOL_VAULT_ADDRESS")
  && JS.truthy_env (env !! "MAKER_ADDRESS")
  && isAddress (JS.str (env !! "MAKER_ADDRESS"))
  && JS.truthy_env (env !! "PRIVATE_KEY").

(** The client [initWeb3] builds from [process.env]. *)
Definition client_of (env : gmap string string) : Client :=
  {| web3 := {| provider := JS.str (env !! "RPC_ENDPOINT") |};
     account :=
       {| address := JS.str (env !! "MAKER_ADDRESS");
          mnemonic :=
            JS.Buffer_from_hex (JS.trim (JS.str (env !! "PRIVATE_KEY"))) |};
     margin :=
       {| abi := Margin;
          options_address := JS.str (env !! "MARGIN_ADDRESS") |};
     orderBook :=
       {| abi := OrderBook;
          options_address := JS.str (env !! "ORDER_BOOK_ADDRESS") |};
     protocolVault :=
       {| abi := ProtocolVault;
          options_address := JS.str (env !! "PROTOCOL_VAULT_ADDRESS") |} |}.

(** The allowances that compare below the deposit amount as strings, among
    the non-negative ones: zero and the powers of ten below [10^18]. *)
Definition topped_up (a : Z) : Prop :=
  a = 0 \/ exists k : nat, (k < 18)%nat /\ a = 10 ^ Z.of_nat k.

(** What a request of [depositMarginOtherToken] carries as spender and as
    amount, for the spender [spender]: the allowance is asked for
    ([owner], [spender]), the approval is of the deposit amount to
    [spender], and the deposit is of the deposit amount. *)
Definition spends_through (owner spender : string) (r : request) : Prop :=
  match r with
  | CallMethod _ m =>
      m = {| method := "allowance"; args := [AStr owner; AStr spender] |}
  | SendMethod _ m _ =>
      m = {| method := "approve";
             args := [AStr spender; AStr (JS.toString deposit_amount)] |} \/
      m = {| method := "receiveDepositInOtherToken";
             args := [AStr tokenAddress;
                      AStr (JS.toString deposit_amount)] |}
  | EstimateGas _ m _ =>
      m = {| method := "receiveDepositInOtherToken";
             args := [AStr tokenAddress;
                      AStr (JS.toString deposit_amount)] |}
  | _ => True
  end.

(** What an operation writes to the console after the receipt [r] of a
    submission, if anything. *)
Definition logs_receipt (op : operation) (r : Receipt) : option logged :=
  match op with
  | OpAddMakerOrder =>
      Some (LStr ("Transaction Mined with Hash : " +:+ transactionHash r))
  | OpDepositMarginWETH => Some (LReceipt r)
  | _ => None
  end.

(** The receipt answered at an entry, if it is a successful submission. *)
Definition receipt_answered (e : entry) : option Receipt :=
  match e with
  | Entry r a =>
      match r return outcome (answer r) -> option Receipt with
      | SendMethod _ _ _ =>
          fun a => match a with Ok x => Some x | Err _ => None end
      | _ => fun _ => None
      end a
  end.

(** The client of the mock configuration. *)
Definition mock_client : Client :=
  {| web3 := Mock.web3;
     account := Mock.account;
     margin :=
       {| abi := Margin;
          options_address := "0x2222222222222222222222222222222222222222" |};
     orderBook := Mock.book;
     protocolVault := Mock.vault |}.

(** What [main] may ask of the chain: [addMakerOrder] on the order book of
    the environment, as the maker, and the maker's transaction count;
    never a read-only call. *)
Definition main_request (env : gmap string string) (r : request) : Prop :=
  match r with
  | EstimateGas c m opts | SendMethod c m opts =>
      c = orderBook (client_of env) /\
      method m = "addMakerOrder" /\
      field "from" opts = Some (JS.str (env !! "MAKER_ADDRESS"))
  | GetTransactionCount a => a = JS.str (env !! "MAKER_ADDRESS")
  | CallMethod _ _ => False
  | _ => True
  end.

(** A chain whose allowance call answers twice the deposit amount. *)
Definition large_allowance : Mock.Chain :=
  {| Mock.allowance := 2 * 10 ^ 18; Mock.gas := 21000;
     Mock.derived := Mock.maker |}.

(** A chain whose allowance call answers 100 wei. *)
Definition hundred_allowance : Mock.Chain :=
  {| Mock.allowance := 100; Mock.gas := 21000; Mock.derived := Mock.maker |}.

(** ** Symbolic execution against an arbitrary handler *)

Ltac unfold_script :=
  unfold trace, result, run_operation, script, main, initWeb3, addMakerOrder,
    removeMakerOrder, depositMarginWETH, depositMarginOtherToken,
    withdrawMargin, newWeb3, newContract, estimateGas, getTransactionCount,
    call, send, console_log, throw, perform.

Ltac exec_step h :=
  match goal with
  | |- context [h ?r ?w] =>
      let x := fresh "x" in
      let e := fresh "err" in
      let w' := fresh "w" in
      let E := fresh "Hh" in
      destruct (h r w) as [[x|e] w'] eqn:E
  | |- context [if ?b then _ else _] =>
      let E := fresh "Hb" in destruct b eqn:E
  end.

Ltac exec h := unfold_script; cbn; repeat (exec_step h; cbn).

(** Case analysis on the position [i] of a concrete trace. *)
Ltac at_position i H :=
  repeat (destruct i as [|i]; cbn in H; [injection H as <- | ]);
  try discriminate H.

Ltac member_at k :=
  match k with
  | O => left
  | S ?k' => right; member_at k'
  end.

(** The [k]-th entry of a concrete trace is a failed local request. *)
Ltac failed_member k :=
  eexists; split; [member_at k; reflexivity | split; reflexivity].

(** Case analysis on the checks of [initWeb3] that the context or the goal
    mentions; the cases a hypothesis excludes are closed. *)
Ltac case_checks :=
  repeat match goal with
    | H : context [JS.truthy_env ?v] |- _ =>
        destruct (JS.truthy_env v); cbn in *; try discriminate
    | H : context [isAddress ?v] |- _ =>
        destruct (isAddress v); cbn in *; try discriminate
    | |- context [JS.truthy_env ?v] =>
        destruct (JS.truthy_env v); cbn in *; try discriminate
    | |- context [isAddress ?v] =>
        destruct (isAddress v); cbn in *; try discriminate
    end.

(** A member of a concrete trace that failed contradicts [all_answered]. *)
Ltac failed_entry H :=
  exfalso;
  first
    [ discriminate (H _ ltac:(member_at 0%nat; reflexivity))
    | discriminate (H _ ltac:(member_at 1%nat; reflexivity))
    | discriminate (H _ ltac:(member_at 2%nat; reflexivity))
    | discriminate (H _ ltac:(member_at 3%nat; reflexivity))
    | discriminate (H _ ltac:(member_at 4%nat; reflexivity))
    | discriminate (H _ ltac:(member_at 5%nat; reflexivity))
    | discriminate (H _ ltac:(member_at 6%nat; reflexivity)) ].

Ltac power_below k :=
  lazymatch k with
  | 18%nat => fail
  | _ =>
      first
        [ solve [exists k; split; [lia | vm_compute; reflexivity]]
        | power_below (S k) ]
  end.

(** ** General facts on runs *)

Section RunFacts.

Context {W : Type} (h : handler W).

Lemma run_bind {A B : Type} (p : prog A) (f : A -> prog B) (w : W) :
  run h (bind p f) w =
  match run h p w with
  | (tr, Ok a, w') =>
      let '(tr', res, w'') := run h (f a) w' in (tr ++ tr', res, w'')
  | (tr, Err e, w') => (tr, Err e, w')
  end.
Proof.
  revert w. induction p as [a|e|r k IH]; intro w; cbn.
  - destruct (run h (f a) w) as [[tr res] w']. reflexivity.
  - reflexivity.
  - destruct (h r w) as [[x|e] w']; [|reflexivity].
    rewrite IH. destruct (run h (k x) w') as [[tr [a|e]] w''].
    + destruct (run h (f a) w'') as [[tr' res] w3]. reflexivity.
    + reflexivity.
Qed.

(** The script has no [try]/[catch]: a request that fails is the last
    one of the run, and its error is the outcome. *)
Lemma failure_ends_run {A : Type} (p : prog A) (w : W) (i : nat) (e : entry) :
  trace h p w !! i = Some e -> failed e = true ->
  S i = length (trace h p w) /\
  exists msg, ans e = Err msg /\ result h p w = Err msg.
Proof.
  unfold trace, result. revert w i.
  induction p as [a|msg|r k IH]; intros w i; cbn.
  - intro H. discriminate H.
  - intro H. discriminate H.
  - destruct (h r w) as [[x|msg] w'].
    + specialize (IH x w').
      destruct (run h (k x) w') as [[tr res] w'']. cbn in *.
      destruct i as [|i]; cbn.
      * intros [= <-] F. discriminate F.
      * intros Hi F. destruct (IH i Hi F) as [L M]. split; [lia | exact M].
    + cbn. destruct i as [|i]; cbn.
      * intros [= <-] _. split; [reflexivity|]. exists msg. split; reflexivity.
      * intro H. discriminate H.
Qed.

End RunFacts.

(** ** Truthiness of an estimate *)

Lemma truthy_false (g : Z) : negb (JS.truthy g) = true -> g = 0.
Proof.
  unfold JS.truthy. rewrite negb_involutive. apply Z.eqb_eq.
Qed.

Lemma truthy_true (g : Z) : negb (JS.truthy g) = false -> g <> 0.
Proof.
  unfold JS.truthy. rewrite negb_involutive. apply Z.eqb_neq.
Qed.

(** ** The amounts of the script *)

Lemma toWei_tenth : Utils.toWei "0.1" Utils.ether = JS.toString (10 ^ 18 / 10).
Proof. vm_compute. reflexivity. Qed.

Lemma toWei_two : Utils.toWei "2" Utils.ether = JS.toString (2 * 10 ^ 18).
Proof. vm_compute. reflexivity. Qed.

Lemma toWei_one : Utils.toWei "1" Utils.ether = JS.toString deposit_amount.
Proof. vm_compute. reflexivity. Qed.

(** [trim] strips white space beyond ASCII at both ends, here U+00A0 in
    front and U+2028, TAB and U+FEFF behind, and keeps it inside. *)
Example trim_strips_unicode_white_space :
  JS.trim (JS.of_codes [194; 160; 32; 97; 32; 98; 226; 128; 168; 9;
                        239; 187; 191]%N)
  = "a b" /\
  JS.trim Mock.key = Mock.key /\
  JS.trim (JS.of_codes [9; 32; 226; 128; 175]%N) = EmptyString.
Proof. vm_compute. repeat split; reflexivity. Qed.

(** The blob of the maker order of [0xAAAA...], under the ABI coder on
    static types: four 32-byte words. *)
Example maker_order_blob_bytes :
  @encodeParameters Mock.lib ["address"; "uint256"; "uint256"; "bool"]
    [AStr "0xAAAAAAAAAAAAAAAAAAAAAAAAAAAAAAAAAAAAAAAA";
     AStr (Utils.toWei "0.1" Utils.ether);
     AStr (Utils.toWei "2" Utils.ether); ABool true]
  = "0x000000000000000000000000aaaaaaaaaaaaaaaaaaaaaaaaaaaaaaaaaaaaaaaa"
    +:+ "000000000000000000000000000000000000000000000000016345785d8a0000"
    +:+ "0000000000000000000000000000000000000000000000001bc16d674ec80000"
    +:+ "0000000000000000000000000000000000000000000000000000000000000001".
Proof. vm_compute. reflexivity. Qed.

Example mock_script_run :
  map kind_of
    (requests (trace (Mock.handle Mock.small_allowance)
                 (@script Mock.lib Mock.env) 0)) = script_plan /\
  result (Mock.handle Mock.small_allowance) (@script Mock.lib Mock.env) 0
  = Ok tt.
Proof. vm_compute. split; reflexivity. Qed.

(** ** Nonces *)

Section Nonces.

Context {lib : Web3Lib} {W : Type} (h : handler W).
Variable process_env : gmap string string.

(** C3. In every run of every operation, a submitted transaction is
    immediately preceded by the lookup of the signing account's
    transaction count and carries the count answered there as its nonce;
    a lookup is followed by the one submission it serves or ends the run,
    so no answer is kept for a later submission. *)
Theorem nonce_fetched_before_each_submission
  (op : operation) (web3 : Web3) (account : Account) (c : Contract)
  (w : W) (i : nat) :
  fresh_nonce_at (address account)
    (trace h (run_operation process_env op web3 account c) w) i /\
  count_used_once_at
    (trace h (run_operation process_env op web3 account c) w) i.
Proof.
  destruct op; exec h.
  all: split; [intros e c0 m opts Hi Hr | intros e addr Hi Hr].
  all: at_position i Hi; cbn in Hr; try discriminate Hr; cbn;
    try reflexivity.
  all: injection Hr as <- <- <-.
  all: eexists _, _, _; split; [reflexivity|]; split; [reflexivity|];
    cbn; rewrite ?String.eqb_refl; repeat split; reflexivity.
Qed.

End Nonces.

(** The two submissions of an alternate-token deposit on the mock chain
    carry the counts 0 and 1, each looked up right before. *)
Example mock_deposit_nonces :
  map (fun r => match r with
                | SendMethod _ _ opts => field "nonce" opts
                | _ => None
                end)
    (sends (trace (Mock.handle Mock.zero_gas)
              (@depositMarginOtherToken Mock.env Mock.web3 Mock.account
                 Mock.vault) 0)
     ++ sends (trace (Mock.handle (Mock.Build_Chain 0 21000 Mock.maker))
                 (@depositMarginOtherToken Mock.env Mock.web3 Mock.account
                    Mock.vault) 0))
  = [Some "0"; Some "0"; Some "1"].
Proof. vm_compute. reflexivity. Qed.

(** ** No retry *)

Section NoRetry.

Context {lib : Web3Lib} {W : Type} (h : handler W).
Variable process_env : gmap string string.

Lemma operation_follows_plan (op : operation) (web3 : Web3)
  (account : Account) (c : Contract) (w : W) :
  exists plan, In plan (plans op) /\
    follows plan (trace h (run_operation process_env op web3 account c) w)
      (result h (run_operation process_env op web3 account c) w).
Proof.
  destruct op; exec h.
  all: first
    [ eexists; split; [left; reflexivity|];
      split; [eexists; reflexivity
             | cbn; intro R; first [discriminate R | reflexivity]]
    | eexists; split; [right; left; reflexivity|];
      split; [eexists; reflexivity
             | cbn; intro R; first [discriminate R | reflexivity]] ].
Qed.

Lemma script_follows_plan (w : W) :
  follows script_plan (trace h (script process_env) w)
    (result h (script process_env) w).
Proof.
  exec h.
  all: split; [eexists; reflexivity
              | cbn; intro R; first [discriminate R | reflexivity]].
Qed.

(** C7. No network action is retried: the requests of every run of an
    operation are an initial segment of that operation's linear sequence
    (each step issued at most once, in order), a request that throws is
    the last of the run and its error is what the operation throws; the
    same holds for the whole script, whose final log line is not reached
    when [main] threw. *)
Theorem no_retry_errors_are_fatal
  (op : operation) (web3 : Web3) (account : Account) (c : Contract)
  (w : W) :
  (exists plan, In plan (plans op) /\
     follows plan (trace h (run_operation process_env op web3 account c) w)
       (result h (run_operation process_env op web3 account c) w)) /\
  errors_propagate
    (trace h (run_operation process_env op web3 account c) w)
    (result h (run_operation process_env op web3 account c) w) /\
  follows script_plan (trace h (script process_env) w)
    (result h (script process_env) w) /\
  errors_propagate (trace h (script process_env) w)
    (result h (script process_env) w) /\
  (returned (result h (main process_env) w) = false ->
   ~ In (ConsoleLog (LStr "Finished Execution "))
        (requests (trace h (script process_env) w))).
Proof.
  split; [apply operation_follows_plan|].
  split; [intros i e; apply failure_ends_run|].
  split; [apply script_follows_plan|].
  split; [intros i e; apply failure_ends_run|].
  exec h; cbn; intros R HIn; try discriminate R.
  all: repeat (destruct HIn as [HIn|HIn]; [discriminate HIn|]); exact HIn.
Qed.

End NoRetry.

(** ** Gas estimation *)

Section GasFailure.

Context {lib : Web3Lib} {W : Type} (h : handler W).
Variable process_env : gmap string string.

(** C2 (amended). When the estimation step answers a falsy estimate, the
    operation throws its estimation error and the estimation is the last
    request of the run, so nothing is submitted after it; the run holds no
    submission at all, except that the alternate-token deposit may already
    have submitted its approval, before the estimation. *)
Theorem gas_failure_stops_operation
  (op : operation) (web3 : Web3) (account : Account) (c : Contract)
  (w : W) (e : entry) (g : Z) :
  In e (trace h (run_operation process_env op web3 account c) w) ->
  gas_answered e = Some g -> JS.truthy g = false ->
  result h (run_operation process_env op web3 account c) w
    = Err (gas_error op) /\
  (exists tr', trace h (run_operation process_env op web3 account c) w
               = tr' ++ [e]) /\
  (op <> OpDepositMarginOtherToken ->
   sends (trace h (run_operation process_env op web3 account c) w) = []) /\
  (forall r,
     In r (sends (trace h (run_operation process_env op web3 account c) w))
     -> method_of r = "approve").
Proof.
  destruct op; exec h; intros HIn Hg Hf.
  all: repeat (destruct HIn as [<-|HIn]; [cbn in Hg; try discriminate Hg|]);
    try contradiction.
  all: injection Hg as ->; try (rewrite Hf in *; discriminate).
  all: split; [reflexivity|].
  all: split;
    [first [ exists []; reflexivity
           | eexists [_]; reflexivity
           | eexists [_; _]; reflexivity
           | eexists [_; _; _]; reflexivity
           | eexists [_; _; _; _]; reflexivity ]|].
  all: split;
    [intro Hop; first [reflexivity | contradiction Hop; reflexivity]|].
  all: cbn; intros r Hr;
    repeat (destruct Hr as [<-|Hr]; [reflexivity|]); contradiction.
Qed.

End GasFailure.

(** On the mock chain with no allowance and estimates of zero, the deposit
    of the alternate token has submitted its approval when the estimation
    fails: the short circuit as specified does not hold of that run. *)
Lemma approval_submitted_despite_gas_failure :
  ~ no_submission_on_gas_failure
      (trace (Mock.handle Mock.zero_gas)
         (@depositMarginOtherToken Mock.env Mock.web3 Mock.account Mock.vault)
         0)
      (result (Mock.handle Mock.zero_gas)
         (@depositMarginOtherToken Mock.env Mock.web3 Mock.account Mock.vault)
         0).
Proof.
  intro H.
  destruct (H (Mock.entry_at 4
                 (trace (Mock.handle Mock.zero_gas)
                    (@depositMarginOtherToken Mock.env Mock.web3 Mock.account
                       Mock.vault) 0)) 0) as [_ S].
  - vm_compute. do 4 right. left. reflexivity.
  - reflexivity.
  - reflexivity.
  - vm_compute in S. discriminate S.
Qed.

Lemma gas_failure_stops_operation_witness :
  result (Mock.handle Mock.zero_gas)
    (@run_operation Mock.lib Mock.env OpAddMakerOrder Mock.web3 Mock.account
       Mock.book) 0
  = Err (gas_error OpAddMakerOrder) /\
  (exists tr',
     trace (Mock.handle Mock.zero_gas)
       (@run_operation Mock.lib Mock.env OpAddMakerOrder Mock.web3
          Mock.account Mock.book) 0
     = tr' ++ [Mock.entry_at 0
                 (trace (Mock.handle Mock.zero_gas)
                    (@run_operation Mock.lib Mock.env OpAddMakerOrder
                       Mock.web3 Mock.account Mock.book) 0)]) /\
  (OpAddMakerOrder <> OpDepositMarginOtherToken ->
   sends (trace (Mock.handle Mock.zero_gas)
            (@run_operation Mock.lib Mock.env OpAddMakerOrder Mock.web3
               Mock.account Mock.book) 0) = []) /\
  (forall r,
     In r (sends (trace (Mock.handle Mock.zero_gas)
                    (@run_operation Mock.lib Mock.env OpAddMakerOrder
                       Mock.web3 Mock.account Mock.book) 0)) ->
     method_of r = "approve").
Proof.
  apply (@gas_failure_stops_operation Mock.lib Z (Mock.handle Mock.zero_gas)
           Mock.env OpAddMakerOrder Mock.web3 Mock.account Mock.book 0
           (Mock.entry_at 0
              (trace (Mock.handle Mock.zero_gas)
                 (@run_operation Mock.lib Mock.env OpAddMakerOrder Mock.web3
                    Mock.account Mock.book) 0)) 0).
  - vm_compute. left. reflexivity.
  - reflexivity.
  - reflexivity.
Defined.

Section GasBlind.

Context {W : Type} (h : handler W) (f : Z -> Z).
Hypothesis f_truthy : forall g, JS.truthy (f g) = JS.truthy g.

Lemma f_nonzero (g : Z) : g <> 0 -> f g <> 0.
Proof.
  intros Hg Hfg. specialize (f_truthy g). unfold JS.truthy in f_truthy.
  rewrite Hfg in f_truthy. cbn in f_truthy.
  destruct (Z.eqb_spec g 0); [contradiction | discriminate].
Qed.

Lemma f_zero : f 0 = 0.
Proof.
  specialize (f_truthy 0). unfold JS.truthy in f_truthy. cbn in f_truthy.
  destruct (Z.eqb_spec (f 0) 0); [assumption | discriminate].
Qed.

Lemma gas_blind_retune {A : Type} (p : prog A) (w : W) :
  gas_blind p ->
  requests (trace (retune f h) p w) = requests (trace h p w) /\
  result (retune f h) p w = result h p w /\
  snd (run (retune f h) p w) = snd (run h p w).
Proof.
  unfold trace, result. revert w.
  induction p as [a|e|r k IH]; intros w Hp; cbn.
  - repeat split.
  - repeat split.
  - destruct Hp as [Hk Hr].
    assert (Hstep : forall (x y : answer r) w',
               k y = k x ->
               requests (fst (fst (run (retune f h) (k y) w'))) =
               requests (fst (fst (run h (k x) w'))) /\
               snd (fst (run (retune f h) (k y) w')) =
               snd (fst (run h (k x) w')) /\
               snd (run (retune f h) (k y) w') = snd (run h (k x) w')).
    { intros x y w' E. rewrite E. apply IH, Hk. }
    destruct r; cbn in *;
      destruct (h _ w) as [[x|e] w'] eqn:Hh; cbn;
      try (repeat split; reflexivity).
    all: try (specialize (Hstep x x w' eq_refl);
              destruct (run (retune f h) (k x) w') as [[tr1 res1] w1];
              destruct (run h (k x) w') as [[tr2 res2] w2];
              cbn in *; destruct Hstep as (H1 & H2 & H3);
              repeat split; congruence).
    assert (E : k (f x) = k x).
    { destruct (Z.eq_dec x 0) as [->|Hx].
      - rewrite f_zero. reflexivity.
      - apply Hr; [apply f_nonzero|]; assumption. }
    specialize (Hstep x (f x) w' E).
    destruct (run (retune f h) (k (f x)) w') as [[tr1 res1] w1].
    destruct (run h (k x) w') as [[tr2 res2] w2].
    cbn in *. destruct Hstep as (H1 & H2 & H3).
    repeat split; congruence.
Qed.

End GasBlind.

Section GasUnused.

Context {lib : Web3Lib} {W : Type} (h : handler W).
Variable process_env : gmap string string.

Lemma operations_gas_blind (op : operation) (web3 : Web3)
  (account : Account) (c : Contract) :
  gas_blind (run_operation process_env op web3 account c).
Proof.
  destruct op; unfold_script; cbn.
  all: repeat first
    [ split
    | exact I
    | intro
    | match goal with
      | |- context [if JS.lt ?a ?b then _ else _] =>
          destruct (JS.lt a b); cbn
      | |- context [JS.truthy _] => unfold JS.truthy
      | |- context [?g =? 0] => destruct (Z.eqb_spec g 0); cbn
      end
    | contradiction
    | reflexivity ].
Qed.

Lemma submissions_carry_no_gas (op : operation) (web3 : Web3)
  (account : Account) (c : Contract) (w : W) :
  Forall no_gas_field
    (sends (trace h (run_operation process_env op web3 account c) w)).
Proof.
  destruct op; exec h.
  all: repeat
    (apply List.Forall_cons;
     [cbn; intros key v HIn;
      repeat (destruct HIn as [[= <- <-]|HIn]; [auto|]); contradiction|]).
  all: apply List.Forall_nil.
Qed.

(** C9. The gas estimate only gates the operation: replacing every
    estimate the chain answers by another one that is zero exactly when
    it was leaves the submitted requests and the outcome of every run
    unchanged, and a submitted request has no other field than sender,
    nonce and type, so no gas limit. *)
Theorem gas_estimate_only_gates_submission
  (f : Z -> Z) (op : operation) (web3 : Web3) (account : Account)
  (c : Contract) (w : W) :
  (forall g, JS.truthy (f g) = JS.truthy g) ->
  sends (trace (retune f h) (run_operation process_env op web3 account c) w)
  = sends (trace h (run_operation process_env op web3 account c) w) /\
  result (retune f h) (run_operation process_env op web3 account c) w
  = result h (run_operation process_env op web3 account c) w /\
  Forall no_gas_field
    (sends (trace h (run_operation process_env op web3 account c) w)).
Proof.
  intro Hf.
  destruct (gas_blind_retune h f Hf _ w
              (operations_gas_blind op web3 account c)) as (H1 & H2 & _).
  split; [unfold sends; rewrite H1; reflexivity|].
  split; [exact H2 | apply submissions_carry_no_gas].
Qed.

End GasUnused.

Lemma gas_estimate_only_gates_submission_witness :
  sends (trace (retune (Z.mul 2) (Mock.handle Mock.small_allowance))
           (@run_operation Mock.lib Mock.env OpDepositMarginWETH Mock.web3
              Mock.account Mock.vault) 0)
  = sends (trace (Mock.handle Mock.small_allowance)
             (@run_operation Mock.lib Mock.env OpDepositMarginWETH Mock.web3
                Mock.account Mock.vault) 0) /\
  result (retune (Z.mul 2) (Mock.handle Mock.small_allowance))
    (@run_operation Mock.lib Mock.env OpDepositMarginWETH Mock.web3
       Mock.account Mock.vault) 0
  = result (Mock.handle Mock.small_allowance)
      (@run_operation Mock.lib Mock.env OpDepositMarginWETH Mock.web3
         Mock.account Mock.vault) 0 /\
  Forall no_gas_field
    (sends (trace (Mock.handle Mock.small_allowance)
              (@run_operation Mock.lib Mock.env OpDepositMarginWETH Mock.web3
                 Mock.account Mock.vault) 0)).
Proof.
  apply (@gas_estimate_only_gates_submission Mock.lib Z
           (Mock.handle Mock.small_allowance) Mock.env (Z.mul 2)
           OpDepositMarginWETH Mock.web3 Mock.account Mock.vault 0).
  intro g. destruct g; reflexivity.
Defined.

(** ** Decimal strings under the lexicographic order *)

Section DecimalOrder.

Import Decimal.

(** A decimal numeral that compares below "1000000000000000000" as a
    string starts with "0" or is a strict prefix of it. *)
Lemma lex_below_amount (d : uint) :
  d <> Nil ->
  String.ltb (NilEmpty.string_of_uint d) "1000000000000000000" = true ->
  (exists d', d = D0 d') \/ (Pos.of_uint d < 10 ^ 18)%N.
Proof.
  intros Hnil H.
  destruct d; try contradiction; try discriminate H;
    [left; eexists; reflexivity|].
  right.
  do 18 (destruct d; [vm_compute; reflexivity | | discriminate H ..]).
  destruct d; discriminate H.
Qed.

(** The rendering of a positive number has no leading zero. *)
Lemma to_uint_no_leading_zero (p : positive) (d' : uint) :
  Pos.to_uint p <> D0 d'.
Proof.
  intro E.
  pose proof (DecimalPos.Unsigned.to_of (Pos.to_uint p)) as H.
  rewrite DecimalPos.Unsigned.of_to in H. cbn [N.to_uint] in H.
  rewrite E, DecimalFacts.unorm_D0 in H.
  destruct (nzhead d') eqn:Hd.
  1: { apply DecimalFacts.unorm_0 in Hd. rewrite Hd in H.
       injection H as ->. exact (Unsigned.to_uint_nonzero p E). }
  all: rewrite DecimalFacts.unorm_nzhead in H by (rewrite Hd; discriminate);
    symmetry in H; exact (DecimalFacts.nzhead_nonzero _ _ H).
Qed.

End DecimalOrder.

(** An allowance that covers the deposit amount never compares below it
    as a string. *)
Lemma sufficient_not_lex_below (a : Z) :
  deposit_amount <= a ->
  JS.lt (JS.toString a) (Utils.toWei "1" Utils.ether) = false.
Proof.
  intro Ha. change (Utils.toWei "1" Utils.ether) with "1000000000000000000".
  unfold deposit_amount in Ha. unfold JS.lt, JS.toString.
  destruct a as [|p|p]; try lia. cbn [Z.to_int NilZero.string_of_int].
  destruct (String.ltb (NilZero.string_of_uint (Pos.to_uint p))
              "1000000000000000000") eqn:H; [|reflexivity].
  exfalso.
  pose proof (Unsigned.to_uint_nonnil p) as Hnil.
  assert (H' : String.ltb (NilEmpty.string_of_uint (Pos.to_uint p))
                 "1000000000000000000" = true).
  { destruct (Pos.to_uint p); exact H. }
  destruct (lex_below_amount _ Hnil H') as [[d' E]|Hlt].
  - exact (to_uint_no_leading_zero p d' E).
  - rewrite DecimalPos.Unsigned.of_to in Hlt. lia.
Qed.

(** ** Allowance top-up *)

Section Allowance.

Context {lib : Web3Lib} {W : Type} (h : handler W).
Variable process_env : gmap string string.

(** What the code does: the approval is decided by the order of the two
    decimal strings, and there is at most one. *)
Lemma approval_decided_by_string_order
  (web3 : Web3) (account : Account) (c : Contract) (w : W)
  (e : entry) (a : Z) :
  In e (trace h (depositMarginOtherToken process_env web3 account c) w) ->
  allowance_answered e = Some a ->
  (JS.lt (JS.toString a) (Utils.toWei "1" Utils.ether) = false ->
   sends_of "approve"
     (trace h (depositMarginOtherToken process_env web3 account c) w) = [])
  /\
  (length
     (sends_of "approve"
        (trace h (depositMarginOtherToken process_env web3 account c) w))
   <= 1)%nat.
Proof.
  exec h; intros HIn Ha.
  all: repeat (destruct HIn as [<-|HIn]; [cbn in Ha; try discriminate Ha|]);
    try contradiction.
  all: injection Ha as ->.
  all: split; [intro Hlt; first [reflexivity | congruence] | cbn; lia].
Qed.

(** X14. The half of the rule that holds: an allowance at or above the
    deposit amount is never topped up. *)
Lemma sufficient_allowance_no_approval
  (web3 : Web3) (account : Account) (c : Contract) (w : W)
  (e : entry) (a : Z) :
  In e (trace h (depositMarginOtherToken process_env web3 account c) w) ->
  allowance_answered e = Some a ->
  deposit_amount <= a ->
  sends_of "approve"
    (trace h (depositMarginOtherToken process_env web3 account c) w) = [].
Proof.
  intros HIn Ha Hle.
  apply (approval_decided_by_string_order web3 account c w e a HIn Ha).
  apply sufficient_not_lex_below, Hle.
Qed.

End Allowance.

(** C1. On the mock chain that answers an allowance of 2 wei, below the
    deposit amount of [1 * 10^18], the deposit of the alternate token
    submits no approval and goes on to submit the deposit: "2" is not below
    "1000000000000000000" as a string, so the run breaks the top-up rule. *)
Theorem small_allowance_not_topped_up :
  allowance_answered
    (Mock.entry_at 1
       (trace (Mock.handle Mock.small_allowance)
          (@depositMarginOtherToken Mock.env Mock.web3 Mock.account
             Mock.vault) 0)) = Some 2 /\
  2 < deposit_amount /\
  JS.lt (JS.toString 2) (Utils.toWei "1" Utils.ether) = false /\
  sends_of "approve"
    (trace (Mock.handle Mock.small_allowance)
       (@depositMarginOtherToken Mock.env Mock.web3 Mock.account
          Mock.vault) 0) = [] /\
  length
    (sends_of "receiveDepositInOtherToken"
       (trace (Mock.handle Mock.small_allowance)
          (@depositMarginOtherToken Mock.env Mock.web3 Mock.account
             Mock.vault) 0)) = 1%nat /\
  ~ tops_up_as_specified
      (trace (Mock.handle Mock.small_allowance)
         (@depositMarginOtherToken Mock.env Mock.web3 Mock.account
            Mock.vault) 0) 2.
Proof.
  repeat split; try (vm_compute; reflexivity).
  intros [H _].
  assert (L : 2 < deposit_amount) by reflexivity.
  specialize (H L). vm_compute in H. discriminate H.
Qed.

(** ** Maker order *)

Section MakerOrder.

Context {lib : Web3Lib} {W : Type} (h : handler W).

(** C4. The blob of [addMakerOrder] is the ABI coder's output for the
    types (address, uint256, uint256, bool) on the signing account's
    address, the amount [0.1 * 10^18], the price [2 * 10^18] and [true],
    in that order. Every run starts by estimating [addMakerOrder] on the
    order book with the blob as only argument; once the estimate is not
    zero the account's transaction count is looked up, and once it is
    answered [addMakerOrder] is submitted on the order book with the same
    blob as only argument; a run that returns has made exactly that one
    submission; and no request of a run is about another contract, method
    or argument. *)
Theorem maker_order_blob_is_sole_argument
  (web3 : Web3) (account : Account) (orderBook : Contract) (w : W) :
  let blob :=
    encodeParameters ["address"; "uint256"; "uint256"; "bool"]
      [AStr (address account); AStr (JS.toString (10 ^ 18 / 10));
       AStr (JS.toString (2 * 10 ^ 18)); ABool true] in
  let m := {| method := "addMakerOrder"; args := [AStr blob] |} in
  hd_error (requests (trace h (addMakerOrder web3 account orderBook) w))
  = Some (EstimateGas orderBook m [("from", address account)]) /\
  (forall r c' m',
     In r (requests (trace h (addMakerOrder web3 account orderBook) w)) ->
     calls_method r = Some (c', m') -> c' = orderBook /\ m' = m) /\
  (forall e g,
     In e (trace h (addMakerOrder web3 account orderBook) w) ->
     gas_answered e = Some g -> g <> 0 ->
     requests (trace h (addMakerOrder web3 account orderBook) w) !! 1%nat
     = Some (GetTransactionCount (address account)) /\
     forall e' n,
       In e' (trace h (addMakerOrder web3 account orderBook) w) ->
       count_answered (address account) e' = Some n ->
       requests (trace h (addMakerOrder web3 account orderBook) w) !! 2%nat
       = Some (SendMethod orderBook m
                 [("from", address account); ("nonce", JS.toString n)])) /\
  (returned (result h (addMakerOrder web3 account orderBook) w) = true ->
   exists n,
     sends (trace h (addMakerOrder web3 account orderBook) w)
     = [SendMethod orderBook m
          [("from", address account); ("nonce", JS.toString n)]]).
Proof.
  intros blob m. subst blob m. rewrite <- toWei_tenth, <- toWei_two.
  exec h.
  all: split; [reflexivity|].
  all: split;
    [ intros r c' m' HIn Hc;
      repeat (destruct HIn as [<-|HIn];
              [cbn in Hc; try discriminate Hc;
               injection Hc as <- <-; split; reflexivity|]);
      contradiction |].
  all: split;
    [ intros e g HIn Hg Hnz;
      repeat (destruct HIn as [<-|HIn]; [cbn in Hg; try discriminate Hg|]);
      try contradiction;
      injection Hg as <-;
      first
        [ exfalso;
          match goal with
          | H : negb (JS.truthy _) = true |- _ =>
              apply truthy_false in H; contradiction
          end
        | split; [reflexivity|];
          intros e' n HIn' Hn;
          repeat (destruct HIn' as [<-|HIn'];
                  [cbn in Hn; try discriminate Hn|]);
          first
            [ contradiction
            | rewrite String.eqb_refl in Hn; injection Hn as <-;
              reflexivity ] ]
    | intro R; first [discriminate R | eexists; reflexivity] ].
Qed.

End MakerOrder.

(** ** Configuration *)

Lemma neq_false (a b : string) : JS.neq a b = false -> a = b.
Proof.
  unfold JS.neq. intro H. apply negb_false_iff in H.
  apply String.eqb_eq, H.
Qed.

Section Configuration.

Context {lib : Web3Lib} {W : Type} (h : handler W).
Variable process_env : gmap string string.

Lemma initWeb3_no_network (w : W) (r : request) :
  In r (requests (trace h (initWeb3 process_env) w)) ->
  is_network r = false.
Proof.
  exec h; intro HIn.
  all: repeat (destruct HIn as [<-|HIn]; [reflexivity|]); contradiction.
Qed.

(** C5. When one of the six required variables is absent, [initWeb3]
    throws and no request of its run goes to the network; what it throws
    is one of its configuration errors, or the error of a library
    constructor that rejected a configured value before the check of the
    absent one. *)
Theorem missing_variable_is_fatal (w : W) (v : string) :
  In v required_variables -> process_env !! v = None ->
  (forall r, In r (requests (trace h (initWeb3 process_env) w)) ->
             is_network r = false) /\
  exists msg,
    result h (initWeb3 process_env) w = Err msg /\
    (In msg configuration_errors \/
     exists e, In e (trace h (initWeb3 process_env) w) /\
               is_network (req e) = false /\ ans e = Err msg).
Proof.
  intros Hv Hnone.
  split; [intros r; apply initWeb3_no_network|].
  assert (Hfalsy : JS.truthy_env (process_env !! v) = false)
    by (rewrite Hnone; reflexivity).
  clear Hnone.
  unfold required_variables in Hv.
  repeat (destruct Hv as [<-|Hv]); try contradiction.
  all: unfold_script; rewrite Hfalsy; cbn [negb];
    rewrite ?orb_true_r; exec h.
  all: eexists; split; [reflexivity|].
  all: first
    [ left; cbn; tauto
    | right; first
        [ solve [failed_member 0%nat] | solve [failed_member 1%nat]
        | solve [failed_member 2%nat] | solve [failed_member 3%nat]
        | solve [failed_member 4%nat] ] ].
Qed.

(** C6. When the wallet derives from the configured key an address that
    differs from the configured maker address, [initWeb3] throws the
    mismatch error: it returns no client, and the derivation is the last
    request of its run. *)
Theorem key_mismatch_is_fatal (w : W) (e : entry) (d : string) :
  In e (trace h (initWeb3 process_env) w) ->
  derived_address e = Some d ->
  d <> JS.str (process_env !! "MAKER_ADDRESS") ->
  result h (initWeb3 process_env) w = Err mismatch_error /\
  req e = WalletAdd (JS.trim (JS.str (process_env !! "PRIVATE_KEY"))) /\
  exists tr', trace h (initWeb3 process_env) w = tr' ++ [e].
Proof.
  exec h; intros HIn Hd Hneq.
  all: repeat (destruct HIn as [<-|HIn]; [cbn in Hd; try discriminate Hd|]);
    try contradiction.
  all: injection Hd as ->.
  all: try (exfalso; apply Hneq, neq_false; assumption).
  all: split; [reflexivity|]; split; [reflexivity|].
  all: eexists [_; _; _; _]; reflexivity.
Qed.

(** C8. The consistency check compares the two strings exactly: a maker
    address that denotes the account the wallet derives, and differs from
    the derived address in letter case only, has passed the address check
    and makes [initWeb3] throw the mismatch error. *)
Theorem maker_check_is_case_sensitive (w : W) (e : entry) (d : string) :
  In e (trace h (initWeb3 process_env) w) ->
  derived_address e = Some d ->
  same_account d (JS.str (process_env !! "MAKER_ADDRESS")) ->
  d <> JS.str (process_env !! "MAKER_ADDRESS") ->
  isAddress (JS.str (process_env !! "MAKER_ADDRESS")) = true /\
  result h (initWeb3 process_env) w = Err mismatch_error.
Proof.
  exec h; intros HIn Hd Hsame Hneq.
  all: repeat (destruct HIn as [<-|HIn]; [cbn in Hd; try discriminate Hd|]);
    try contradiction.
  all: injection Hd as ->.
  all: try (exfalso; apply Hneq, neq_false; assumption).
  all: split; [|reflexivity].
  all: match goal with
       | H : _ || negb (isAddress _) = false |- _ =>
           apply orb_false_elim in H; destruct H as [_ H];
           apply negb_false_iff in H; exact H
       end.
Qed.

End Configuration.

Lemma missing_variable_is_fatal_witness :
  (forall r,
     In r (requests (trace (Mock.handle Mock.small_allowance)
                       (@initWeb3 Mock.lib Mock.env_without_key) 0)) ->
     is_network r = false) /\
  exists msg,
    result (Mock.handle Mock.small_allowance)
      (@initWeb3 Mock.lib Mock.env_without_key) 0 = Err msg /\
    (In msg configuration_errors \/
     exists e,
       In e (trace (Mock.handle Mock.small_allowance)
               (@initWeb3 Mock.lib Mock.env_without_key) 0) /\
       is_network (req e) = false /\ ans e = Err msg).
Proof.
  apply (@missing_variable_is_fatal Mock.lib Z
           (Mock.handle Mock.small_allowance) Mock.env_without_key 0
           "PRIVATE_KEY").
  - vm_compute. tauto.
  - vm_compute. reflexivity.
Defined.

Lemma key_mismatch_is_fatal_witness :
  result (Mock.handle Mock.small_allowance)
    (@initWeb3 Mock.lib (Mock.env_of Mock.other)) 0 = Err mismatch_error /\
  req (Mock.entry_at 4
         (trace (Mock.handle Mock.small_allowance)
            (@initWeb3 Mock.lib (Mock.env_of Mock.other)) 0))
  = WalletAdd
      (JS.trim (JS.str (Mock.env_of Mock.other !! "PRIVATE_KEY"))) /\
  exists tr',
    trace (Mock.handle Mock.small_allowance)
      (@initWeb3 Mock.lib (Mock.env_of Mock.other)) 0
    = tr' ++ [Mock.entry_at 4
                (trace (Mock.handle Mock.small_allowance)
                   (@initWeb3 Mock.lib (Mock.env_of Mock.other)) 0)].
Proof.
  apply (@key_mismatch_is_fatal Mock.lib Z
           (Mock.handle Mock.small_allowance) (Mock.env_of Mock.other) 0
           (Mock.entry_at 4
              (trace (Mock.handle Mock.small_allowance)
                 (@initWeb3 Mock.lib (Mock.env_of Mock.other)) 0))
           Mock.maker).
  - vm_compute. do 4 right. left. reflexivity.
  - vm_compute. reflexivity.
  - vm_compute. discriminate.
Defined.

Lemma maker_check_is_case_sensitive_witness :
  @isAddress Mock.lib
    (JS.str (Mock.env_of Mock.maker_lower !! "MAKER_ADDRESS")) = true /\
  result (Mock.handle Mock.small_allowance)
    (@initWeb3 Mock.lib (Mock.env_of Mock.maker_lower)) 0
  = Err mismatch_error.
Proof.
  apply (@maker_check_is_case_sensitive Mock.lib Z
           (Mock.handle Mock.small_allowance)
           (Mock.env_of Mock.maker_lower) 0
           (Mock.entry_at 4
              (trace (Mock.handle Mock.small_allowance)
                 (@initWeb3 Mock.lib (Mock.env_of Mock.maker_lower)) 0))
           Mock.maker).
  - vm_compute. do 4 right. left. reflexivity.
  - vm_compute. reflexivity.
  - vm_compute. reflexivity.
  - vm_compute. discriminate.
Defined.

(** ** The token of the alternate-token deposit *)

(** On the mock chain every request is answered: the deposit of the
    alternate token is estimated and submitted with the literal. *)
Example mock_deposit_requests :
  map kind_of
    (requests
       (trace (Mock.handle Mock.small_allowance)
          (@depositMarginOtherToken Mock.env Mock.web3 Mock.account
             Mock.vault) 0))
  = [KNewContract ERC20; KCall "allowance";
     KEstimate "receiveDepositInOtherToken"; KNonce;
     KSend "receiveDepositInOtherToken"] /\
  sends
    (trace (Mock.handle Mock.small_allowance)
       (@depositMarginOtherToken Mock.env Mock.web3 Mock.account
          Mock.vault) 0)
  = [SendMethod Mock.vault
       {| method := "receiveDepositInOtherToken";
          args := [AStr tokenAddress; AStr "1000000000000000000"] |}
       [("from", Mock.maker); ("type", "0x02"); ("nonce", "0")]].
Proof. vm_compute. split; reflexivity. Qed.


Section OtherToken.

Context {lib : Web3Lib} {W : Type} (h : handler W).
Variable process_env : gmap string string.

(** C10. Every run of [depositMarginOtherToken] starts by building its
    ERC-20 binding at the literal "0x000000000000000000000000000000",
    thirty hexadecimal digits (15 bytes) and so not a 20-byte address, and
    every request it makes to that binding or for
    [receiveDepositInOtherToken] carries the literal. The literal is
    passed on: in every run whose requests are all answered, the allowance
    is called on the binding at the literal and
    [receiveDepositInOtherToken] is estimated on the vault with the
    literal as token parameter, and, unless that estimate is zero, it is
    submitted on the vault with the literal as token parameter. *)
Theorem other_token_is_fixed_literal
  (web3 : Web3) (account : Account) (c : Contract) (w : W) :
  tokenAddress = "0x000000000000000000000000000000" /\
  String.length tokenAddress = (2 + 30)%nat /\
  length (JS.Buffer_from_hex (String.substring 2 30 tokenAddress))
  = 15%nat /\
  well_formed_address tokenAddress = false /\
  hd_error
    (requests
       (trace h (depositMarginOtherToken process_env web3 account c) w))
  = Some (NewContract ERC20 tokenAddress) /\
  Forall uses_token_literal
    (requests
       (trace h (depositMarginOtherToken process_env web3 account c) w)) /\
  (all_answered
     (trace h (depositMarginOtherToken process_env web3 account c) w) ->
   In (CallMethod {| abi := ERC20; options_address := tokenAddress |}
         {| method := "allowance";
            args := [AStr (address account);
                     AStr (vault_or_empty process_env)] |})
      (requests
         (trace h (depositMarginOtherToken process_env web3 account c) w))
   /\
   In (EstimateGas c
         {| method := "receiveDepositInOtherToken";
            args := [AStr tokenAddress;
                     AStr (JS.toString deposit_amount)] |} [])
      (requests
         (trace h (depositMarginOtherToken process_env web3 account c) w))
   /\
   ((exists e,
       In e (trace h (depositMarginOtherToken process_env web3 account c) w)
       /\ gas_answered e = Some 0) \/
    exists n,
      In (SendMethod c
            {| method := "receiveDepositInOtherToken";
               args := [AStr tokenAddress;
                        AStr (JS.toString deposit_amount)] |}
            [("from", address account); ("type", "0x02");
             ("nonce", JS.toString n)])
         (requests
            (trace h (depositMarginOtherToken process_env web3 account c)
               w)))).
Proof.
  repeat (split; [reflexivity|]).
  rewrite <- toWei_one. unfold all_answered. exec h.
  all: split; [reflexivity|].
  all: split;
    [ repeat (apply List.Forall_cons; [cbn; auto|]); apply List.Forall_nil |].
  all: intro A; try (failed_entry A).
  all: split; [right; left; reflexivity|].
  all: split;
    [ first [ member_at 2%nat; reflexivity | member_at 4%nat; reflexivity ] |].
  all: first
    [ solve [ right; eexists;
              first [ member_at 4%nat; reflexivity
                    | member_at 6%nat; reflexivity ] ]
    | left;
      match goal with
      | H : negb (JS.truthy _) = true |- _ => apply truthy_false in H; subst
      end;
      first
        [ solve [eexists; split; [member_at 2%nat; reflexivity|reflexivity]]
        | solve [eexists; split; [member_at 4%nat; reflexivity|reflexivity]]
        ] ].
Qed.

End OtherToken.

(** ** What [initWeb3] returns *)

Lemma neq_true (a : string) : JS.neq a a = true -> False.
Proof. unfold JS.neq. rewrite String.eqb_refl. discriminate. Qed.

Section Client.

Context {lib : Web3Lib} {W : Type} (h : handler W).
Variable process_env : gmap string string.

(** X1. [initWeb3] returns a client exactly when the six variables are
    set and not empty, the maker address passes the address check, no
    library request of the run failed, and the wallet derived the maker
    address itself. *)
Theorem initWeb3_returns_iff (w : W) :
  returned (result h (initWeb3 process_env) w) = true <->
  configured process_env = true /\
  all_answered (trace h (initWeb3 process_env) w) /\
  exists e, In e (trace h (initWeb3 process_env) w) /\
            derived_address e
            = Some (JS.str (process_env !! "MAKER_ADDRESS")).
Proof.
  unfold configured, all_answered. exec h.
  all: split; [intro R; try discriminate R | intros (C & A & e & HIn & D)].
  all: try (failed_entry A).
  all: case_checks.
  all: first
    [ reflexivity
    | solve
        [ split; [reflexivity|]; split;
          [ intros e HIn;
            repeat (destruct HIn as [<-|HIn]; [reflexivity|]); contradiction
          | eexists; split; [do 4 right; left; reflexivity|];
            cbn; f_equal; apply neq_false; assumption ] ]
    | exfalso;
      repeat (destruct HIn as [<-|HIn]; [cbn in D; try discriminate D|]);
      try contradiction;
      injection D as ->; eapply neq_true; eassumption ].
Qed.

Lemma initWeb3_result_client (w : W) (c : Client) :
  result h (initWeb3 process_env) w = Ok c -> c = client_of process_env.
Proof.
  unfold client_of. exec h; intro R; try discriminate R.
  injection R as <-.
  match goal with
  | H : JS.neq _ _ = false |- _ => rewrite (neq_false _ _ H)
  end.
  reflexivity.
Qed.

(** X2. The client [initWeb3] returns is the one read off the
    environment: the provider at [RPC_ENDPOINT], the three bindings at their
    configured addresses with their own ABI, and the account at the maker
    address with the trimmed key decoded from hexadecimal. The run that
    returns it made six requests, none to the network, and its log line
    names the maker address. *)
Theorem initWeb3_client (w : W) (c : Client) :
  result h (initWeb3 process_env) w = Ok c ->
  c = client_of process_env /\
  requests (trace h (initWeb3 process_env) w)
  = [NewWeb3 (JS.str (process_env !! "RPC_ENDPOINT"));
     NewContract OrderBook (JS.str (process_env !! "ORDER_BOOK_ADDRESS"));
     NewContract Margin (JS.str (process_env !! "MARGIN_ADDRESS"));
     NewContract ProtocolVault
       (JS.str (process_env !! "PROTOCOL_VAULT_ADDRESS"));
     WalletAdd (JS.trim (JS.str (process_env !! "PRIVATE_KEY")));
     ConsoleLog
       (LStr ("Added Account " +:+ JS.str (process_env !! "MAKER_ADDRESS")))].
Proof.
  intro R. split; [exact (initWeb3_result_client w c R)|].
  revert R. exec h; intro R; try discriminate R.
  match goal with
  | H : JS.neq _ _ = false |- _ => rewrite (neq_false _ _ H)
  end.
  reflexivity.
Qed.

(** X3. The private key reaches the wallet only under a configuration
    that passed every check: a run that hands a key to the wallet hands
    over the trimmed [PRIVATE_KEY], as its fifth request, and asks the
    wallet nowhere else. *)
Theorem wallet_only_when_configured (w : W) (e : entry) (key : string) :
  In e (trace h (initWeb3 process_env) w) ->
  req e = WalletAdd key ->
  configured process_env = true /\
  key = JS.trim (JS.str (process_env !! "PRIVATE_KEY")) /\
  trace h (initWeb3 process_env) w !! 4%nat = Some e /\
  forall i e', trace h (initWeb3 process_env) w !! i = Some e' ->
               kind_of (req e') = KWalletAdd -> i = 4%nat.
Proof.
  unfold configured. exec h; intros HIn Hr.
  all: repeat (destruct HIn as [<-|HIn]; [cbn in Hr; try discriminate Hr|]);
    try contradiction.
  all: injection Hr as <-.
  all: case_checks.
  all: split; [reflexivity|]; split; [reflexivity|]; split; [reflexivity|].
  all: intros i e' Hi Hk.
  all: at_position i Hi; cbn in Hk; try discriminate Hk; reflexivity.
Qed.

End Client.

Lemma initWeb3_client_witness :
  result (Mock.handle Mock.small_allowance) (@initWeb3 Mock.lib Mock.env) 0
  = Ok mock_client /\
  mock_client = client_of Mock.env /\
  requests (trace (Mock.handle Mock.small_allowance)
              (@initWeb3 Mock.lib Mock.env) 0)
  = [NewWeb3 (JS.str (Mock.env !! "RPC_ENDPOINT"));
     NewContract OrderBook (JS.str (Mock.env !! "ORDER_BOOK_ADDRESS"));
     NewContract Margin (JS.str (Mock.env !! "MARGIN_ADDRESS"));
     NewContract ProtocolVault (JS.str (Mock.env !! "PROTOCOL_VAULT_ADDRESS"));
     WalletAdd (JS.trim (JS.str (Mock.env !! "PRIVATE_KEY")));
     ConsoleLog
       (LStr ("Added Account " +:+ JS.str (Mock.env !! "MAKER_ADDRESS")))].
Proof.
  assert (R : result (Mock.handle Mock.small_allowance)
                (@initWeb3 Mock.lib Mock.env) 0 = Ok mock_client)
    by (vm_compute; reflexivity).
  split; [exact R|].
  exact (@initWeb3_client Mock.lib Z (Mock.handle Mock.small_allowance)
           Mock.env 0 mock_client R).
Defined.

Lemma wallet_only_when_configured_witness :
  @configured Mock.lib Mock.env = true /\
  Mock.key = JS.trim (JS.str (Mock.env !! "PRIVATE_KEY")) /\
  trace (Mock.handle Mock.small_allowance) (@initWeb3 Mock.lib Mock.env) 0
    !! 4%nat
  = Some (Mock.entry_at 4
            (trace (Mock.handle Mock.small_allowance)
               (@initWeb3 Mock.lib Mock.env) 0)) /\
  forall i e',
    trace (Mock.handle Mock.small_allowance) (@initWeb3 Mock.lib Mock.env) 0
      !! i = Some e' ->
    kind_of (req e') = KWalletAdd -> i = 4%nat.
Proof.
  apply (@wallet_only_when_configured Mock.lib Z
           (Mock.handle Mock.small_allowance) Mock.env 0
           (Mock.entry_at 4
              (trace (Mock.handle Mock.small_allowance)
                 (@initWeb3 Mock.lib Mock.env) 0))
           Mock.key).
  - vm_compute. do 4 right. left. reflexivity.
  - vm_compute. reflexivity.
Defined.

(** ** What the operations submit *)

Section Submissions.

Context {lib : Web3Lib} {W : Type} (h : handler W).
Variable process_env : gmap string string.

(** X5. When no request of its run fails, an operation either returns,
    having submitted its transaction exactly once after estimates that
    were all non-zero, or throws its own gas-estimation error on an
    estimate of zero: the gas error is the only error an operation raises
    by itself. *)
Theorem operation_returns_or_gas_error
  (op : operation) (web3 : Web3) (account : Account) (c : Contract) (w : W) :
  all_answered (trace h (run_operation process_env op web3 account c) w) ->
  (result h (run_operation process_env op web3 account c) w = Ok tt /\
   length
     (sends_of (main_method op)
        (trace h (run_operation process_env op web3 account c) w)) = 1%nat /\
   forall e g,
     In e (trace h (run_operation process_env op web3 account c) w) ->
     gas_answered e = Some g -> g <> 0) \/
  (result h (run_operation process_env op web3 account c) w
   = Err (gas_error op) /\
   exists e,
     In e (trace h (run_operation process_env op web3 account c) w) /\
     gas_answered e = Some 0).
Proof.
  unfold all_answered. destruct op; exec h; intro A.
  all: try (failed_entry A).
  all: repeat match goal with
         | H : negb (JS.truthy _) = true |- _ => apply truthy_false in H; subst
         | H : negb (JS.truthy _) = false |- _ => apply truthy_true in H
         end.
  all: first
    [ left; split;
      [ first [ reflexivity
              | match goal with
                | |- Ok ?u = Ok tt => destruct u; reflexivity
                end ]|];
      split; [reflexivity|];
      intros e g HIn Hg;
      repeat (destruct HIn as [<-|HIn]; [cbn in Hg; try discriminate Hg|]);
      try contradiction; injection Hg as <-; assumption
    | right; split; [reflexivity|];
      first
        [ solve [eexists; split; [member_at 0%nat; reflexivity|reflexivity]]
        | solve [eexists; split; [member_at 2%nat; reflexivity|reflexivity]]
        | solve [eexists; split; [member_at 4%nat; reflexivity|reflexivity]]
        ] ].
Qed.

(** X6. Whatever an operation submits under its own method is the call
    it estimated: the same binding, the one it was given, the same method
    and the same arguments, after an estimation that answered a non-zero
    estimate. *)
Theorem submission_was_estimated
  (op : operation) (web3 : Web3) (account : Account) (c : Contract) (w : W)
  (r : request) (c' : Contract) (m : MethodCall) :
  In r (sends_of (main_method op)
          (trace h (run_operation process_env op web3 account c) w)) ->
  calls_method r = Some (c', m) ->
  c' = c /\
  exists e g,
    In e (trace h (run_operation process_env op web3 account c) w) /\
    req e = EstimateGas c m (estimate_options op account) /\
    gas_answered e = Some g /\ g <> 0.
Proof.
  destruct op; exec h; intros HIn Hc.
  all: repeat (destruct HIn as [<-|HIn]; [cbn in Hc|]); try contradiction.
  all: injection Hc as <- <-.
  all: match goal with
       | H : negb (JS.truthy _) = false |- _ => apply truthy_true in H
       end.
  all: split; [reflexivity|].
  all: first
    [ solve [eexists _, _; split; [member_at 0%nat; reflexivity|];
             split; [reflexivity|]; split; [reflexivity|assumption]]
    | solve [eexists _, _; split; [member_at 2%nat; reflexivity|];
             split; [reflexivity|]; split; [reflexivity|assumption]]
    | solve [eexists _, _; split; [member_at 4%nat; reflexivity|];
             split; [reflexivity|]; split; [reflexivity|assumption]] ].
Qed.

(** X7. Every transaction an operation submits names the account as
    sender; [addMakerOrder] leaves the transaction type unset, the four
    other operations ask for type "0x02"; and every estimation carries the
    sender for [addMakerOrder] and [depositMarginWETH], and no option at
    all for the three others. *)
Theorem options_of_requests
  (op : operation) (web3 : Web3) (account : Account) (c : Contract) (w : W)
  (r : request) :
  In r (requests (trace h (run_operation process_env op web3 account c) w)) ->
  match r with
  | SendMethod _ _ opts =>
      field "from" opts = Some (address account) /\
      field "type" opts = send_type op
  | EstimateGas _ _ opts => opts = estimate_options op account
  | _ => True
  end.
Proof.
  destruct op; exec h; intro HIn.
  all: repeat (destruct HIn as [<-|HIn];
               [cbn; rewrite ?String.eqb_refl; auto|]);
    contradiction.
Qed.

(** X8. Which operations write to the console: [addMakerOrder] logs the
    hash and [depositMarginWETH] the receipt that their submission
    returned, right after it; the three other operations never log. A log
    request is always preceded by the successful submission whose receipt
    it reports. *)
Theorem console_reports_the_receipt
  (op : operation) (web3 : Web3) (account : Account) (c : Contract) (w : W)
  (i : nat) (e : entry) (v : logged) :
  trace h (run_operation process_env op web3 account c) w !! i = Some e ->
  req e = ConsoleLog v ->
  exists j e' r,
    i = S j /\
    trace h (run_operation process_env op web3 account c) w !! j = Some e' /\
    kind_of (req e') = KSend (main_method op) /\
    receipt_answered e' = Some r /\
    logs_receipt op r = Some v.
Proof.
  destruct op; exec h; intros Hi Hr.
  all: at_position i Hi; cbn in Hr; try discriminate Hr.
  all: injection Hr as <-.
  all: eexists _, _, _; split; [reflexivity|]; split; [reflexivity|];
    split; [reflexivity|]; split; reflexivity.
Qed.

(** X9. In the deposit of the alternate token, the spender asked about
    and approved is the vault address of the environment, or the empty
    string when that variable is missing, whatever binding the operation
    was given; the approval is of exactly the amount that is then
    deposited, [1 * 10^18]. *)
Theorem spender_is_read_from_environment
  (web3 : Web3) (account : Account) (c : Contract) (w : W) :
  Forall
    (spends_through (address account) (vault_or_empty process_env))
    (requests
       (trace h (depositMarginOtherToken process_env web3 account c) w)) /\
  (JS.truthy_env (process_env !! "PROTOCOL_VAULT_ADDRESS") = false ->
   vault_or_empty process_env = EmptyString) /\
  (JS.truthy_env (process_env !! "PROTOCOL_VAULT_ADDRESS") = true ->
   vault_or_empty process_env
   = JS.str (process_env !! "PROTOCOL_VAULT_ADDRESS")).
Proof.
  split.
  - exec h.
    all: repeat (apply List.Forall_cons; [cbn; rewrite <- ?toWei_one; auto|]).
    all: apply List.Forall_nil.
  - unfold vault_or_empty. split; intros ->; reflexivity.
Qed.

End Submissions.

Lemma operation_returns_or_gas_error_witness :
  (result (Mock.handle Mock.small_allowance)
     (@run_operation Mock.lib Mock.env OpWithdrawMargin Mock.web3
        Mock.account Mock.vault) 0 = Ok tt /\
   length
     (sends_of (main_method OpWithdrawMargin)
        (trace (Mock.handle Mock.small_allowance)
           (@run_operation Mock.lib Mock.env OpWithdrawMargin Mock.web3
              Mock.account Mock.vault) 0)) = 1%nat /\
   forall e g,
     In e (trace (Mock.handle Mock.small_allowance)
             (@run_operation Mock.lib Mock.env OpWithdrawMargin Mock.web3
                Mock.account Mock.vault) 0) ->
     gas_answered e = Some g -> g <> 0) \/
  (result (Mock.handle Mock.small_allowance)
     (@run_operation Mock.lib Mock.env OpWithdrawMargin Mock.web3
        Mock.account Mock.vault) 0
   = Err (gas_error OpWithdrawMargin) /\
   exists e,
     In e (trace (Mock.handle Mock.small_allowance)
             (@run_operation Mock.lib Mock.env OpWithdrawMargin Mock.web3
                Mock.account Mock.vault) 0) /\
     gas_answered e = Some 0).
Proof.
  apply (@operation_returns_or_gas_error Mock.lib Z
           (Mock.handle Mock.small_allowance) Mock.env OpWithdrawMargin
           Mock.web3 Mock.account Mock.vault 0).
  intros e HIn. vm_compute in HIn.
  repeat (destruct HIn as [<-|HIn]; [reflexivity|]). contradiction.
Defined.

Lemma submission_was_estimated_witness :
  Mock.vault = Mock.vault /\
  exists e g,
    In e (trace (Mock.handle Mock.small_allowance)
            (@run_operation Mock.lib Mock.env OpWithdrawMargin Mock.web3
               Mock.account Mock.vault) 0) /\
    req e
    = EstimateGas Mock.vault
        {| method := "withdraw";
           args := [AStr (Utils.toWei "1" Utils.ether)] |}
        (estimate_options OpWithdrawMargin Mock.account) /\
    gas_answered e = Some g /\ g <> 0.
Proof.
  apply (@submission_was_estimated Mock.lib Z
           (Mock.handle Mock.small_allowance) Mock.env OpWithdrawMargin
           Mock.web3 Mock.account Mock.vault 0
           (SendMethod Mock.vault
              {| method := "withdraw";
                 args := [AStr (Utils.toWei "1" Utils.ether)] |}
              [("from", Mock.maker); ("type", "0x02"); ("nonce", "0")])).
  - vm_compute. left. reflexivity.
  - reflexivity.
Defined.

Lemma options_of_requests_witness :
  field "from" [("from", Mock.maker); ("nonce", "0")]
  = Some (address Mock.account) /\
  field "type" [("from", Mock.maker); ("nonce", "0")]
  = send_type OpAddMakerOrder.
Proof.
  apply (@options_of_requests Mock.lib Z (Mock.handle Mock.small_allowance)
           Mock.env OpAddMakerOrder Mock.web3 Mock.account Mock.book 0
           (SendMethod Mock.book
              {| method := "addMakerOrder";
                 args :=
                   [AStr
                      (@encodeParameters Mock.lib
                         ["address"; "uint256"; "uint256"; "bool"]
                         [AStr Mock.maker;
                          AStr (Utils.toWei "0.1" Utils.ether);
                          AStr (Utils.toWei "2" Utils.ether); ABool true])] |}
              [("from", Mock.maker); ("nonce", "0")])).
  vm_compute. do 2 right. left. reflexivity.
Defined.

Lemma console_reports_the_receipt_witness :
  exists j e' r,
    3%nat = S j /\
    trace (Mock.handle Mock.small_allowance)
      (@run_operation Mock.lib Mock.env OpDepositMarginWETH Mock.web3
         Mock.account Mock.vault) 0 !! j = Some e' /\
    kind_of (req e') = KSend (main_method OpDepositMarginWETH) /\
    receipt_answered e' = Some r /\
    logs_receipt OpDepositMarginWETH r
    = Some (LReceipt {| transactionHash := "0xfeed" |}).
Proof.
  apply (@console_reports_the_receipt Mock.lib Z
           (Mock.handle Mock.small_allowance) Mock.env OpDepositMarginWETH
           Mock.web3 Mock.account Mock.vault 0 3%nat
           (Entry (ConsoleLog (LReceipt {| transactionHash := "0xfeed" |}))
              (Ok tt))).
  - vm_compute. reflexivity.
  - reflexivity.
Defined.

(** ** The entry point *)

Section EntryPoint.

Context {lib : Web3Lib} {W : Type} (h : handler W).
Variable process_env : gmap string string.

Lemma initWeb3_result_vault (w : W) (c : Client) :
  result h (initWeb3 process_env) w = Ok c ->
  JS.truthy_env (process_env !! "PROTOCOL_VAULT_ADDRESS") = true.
Proof.
  exec h; intro R; try discriminate R.
  all: case_checks; reflexivity.
Qed.

(** X10. After [initWeb3], the deposit of the alternate token run with the
    returned client asks about and approves, as spender, the very vault
    binding it deposits into, on behalf of the maker address. *)
Theorem deposit_approves_returned_vault
  {W' : Type} (h' : handler W') (w : W) (w' : W') (c : Client) :
  result h (initWeb3 process_env) w = Ok c ->
  Forall
    (spends_through (JS.str (process_env !! "MAKER_ADDRESS"))
       (options_address (protocolVault c)))
    (requests
       (trace h'
          (depositMarginOtherToken process_env (web3 c) (account c)
             (protocolVault c)) w')).
Proof.
  intro R. pose proof (initWeb3_result_vault w c R) as Hv.
  rewrite (initWeb3_result_client h process_env w c R).
  assert (E : vault_or_empty process_env
              = JS.str (process_env !! "PROTOCOL_VAULT_ADDRESS"))
    by (unfold vault_or_empty; rewrite Hv; reflexivity).
  clear R Hv. unfold client_of. cbn [protocolVault account web3 address
                                     options_address].
  exec h'.
  all: repeat (apply List.Forall_cons;
               [cbn; rewrite <- ?toWei_one, ?E; auto|]).
  all: apply List.Forall_nil.
Qed.

(** X11. [main] only ever asks the chain for [addMakerOrder] on the order
    book configured in the environment, as the configured maker, and for
    the maker's transaction count: no other method, no other binding, no
    read-only call. *)
Theorem main_only_places_maker_order (w : W) :
  Forall (main_request process_env)
    (requests (trace h (main process_env) w)).
Proof.
  exec h.
  all: repeat match goal with
         | H : JS.neq _ _ = false |- _ => apply neq_false in H; subst
         end.
  all: repeat (apply List.Forall_cons;
               [cbn; rewrite ?String.eqb_refl; auto|]).
  all: apply List.Forall_nil.
Qed.

(** X12. The script writes "Finished Execution " exactly when [main]
    returned, and then as its last request. *)
Theorem finished_logged_iff_main_returned (w : W) :
  (In (ConsoleLog (LStr "Finished Execution "))
      (requests (trace h (script process_env) w)) <->
   returned (result h (main process_env) w) = true) /\
  (returned (result h (main process_env) w) = true ->
   exists tr a,
     trace h (script process_env) w
     = tr ++ [Entry (ConsoleLog (LStr "Finished Execution ")) a]).
Proof.
  exec h.
  all: split;
    [ split;
      [ intro HIn;
        repeat (destruct HIn as [HIn|HIn]; [try discriminate HIn|]);
        first [reflexivity | contradiction]
      | intro R; first [discriminate R | cbn; tauto] ]
    | intro R; try discriminate R ].
  all: eexists [_; _; _; _; _; _; _; _; _; _], _; reflexivity.
Qed.

End EntryPoint.

Lemma deposit_approves_returned_vault_witness :
  Forall
    (spends_through (JS.str (Mock.env !! "MAKER_ADDRESS"))
       (options_address (protocolVault mock_client)))
    (requests
       (trace (Mock.handle Mock.zero_gas)
          (@depositMarginOtherToken Mock.env (web3 mock_client)
             (account mock_client) (protocolVault mock_client)) 0)).
Proof.
  apply (@deposit_approves_returned_vault Mock.lib Z
           (Mock.handle Mock.small_allowance) Mock.env Z
           (Mock.handle Mock.zero_gas) 0 0 mock_client).
  vm_compute. reflexivity.
Defined.

(** ** The extent of the string comparison *)

Section DecimalPowers.

Import Decimal.

(** A decimal numeral that compares below "1000000000000000000" as a
    string starts with "0" or is "1" followed by fewer than eighteen
    zeros. *)
Lemma lex_below_power (d : uint) :
  d <> Nil ->
  String.ltb (NilEmpty.string_of_uint d) "1000000000000000000" = true ->
  (exists d', d = D0 d') \/
  exists k : nat, (k < 18)%nat /\ Z.of_N (Pos.of_uint d) = 10 ^ Z.of_nat k.
Proof.
  intros Hnil H.
  destruct d; try contradiction; try discriminate H;
    [left; eexists; reflexivity|].
  right.
  do 18 (destruct d; [power_below 0%nat | | discriminate H ..]).
  destruct d; discriminate H.
Qed.

End DecimalPowers.

(** Among the non-negative allowances, those that compare below the
    deposit amount as strings are zero and the powers of ten below it. *)
Lemma lex_below_iff_power (a : Z) :
  0 <= a ->
  JS.lt (JS.toString a) (Utils.toWei "1" Utils.ether) = true <-> topped_up a.
Proof.
  intro Ha. change (Utils.toWei "1" Utils.ether) with "1000000000000000000".
  split.
  - unfold JS.lt, JS.toString. destruct a as [|p|p]; try lia.
    + intros _. left. reflexivity.
    + cbn [Z.to_int NilZero.string_of_int]. intro H.
      pose proof (Unsigned.to_uint_nonnil p) as Hnil.
      assert (H' : String.ltb (NilEmpty.string_of_uint (Pos.to_uint p))
                     "1000000000000000000" = true).
      { destruct (Pos.to_uint p); exact H. }
      destruct (lex_below_power _ Hnil H') as [[d' E]|[k [Hk E]]].
      * exfalso. exact (to_uint_no_leading_zero p d' E).
      * right. exists k. split; [exact Hk|].
        rewrite DecimalPos.Unsigned.of_to in E. exact E.
  - intros [->|[k [Hk ->]]]; [vm_compute; reflexivity|].
    do 18 (destruct k as [|k]; [vm_compute; reflexivity|]). lia.
Qed.

Section TopUp.

Context {lib : Web3Lib} {W : Type} (h : handler W).
Variable process_env : gmap string string.

(** X13. In a run of the alternate-token deposit that returned, with a
    non-negative allowance answered, the approval was submitted, once,
    exactly when the allowance is zero or a power of ten below [10^18];
    for every other allowance no approval was submitted. *)
Theorem approval_exactly_at_powers_of_ten
  (web3 : Web3) (account : Account) (c : Contract) (w : W)
  (e : entry) (a : Z) :
  In e (trace h (depositMarginOtherToken process_env web3 account c) w) ->
  allowance_answered e = Some a ->
  0 <= a ->
  returned (result h (depositMarginOtherToken process_env web3 account c) w)
  = true ->
  (topped_up a ->
   length
     (sends_of "approve"
        (trace h (depositMarginOtherToken process_env web3 account c) w))
   = 1%nat) /\
  (~ topped_up a ->
   sends_of "approve"
     (trace h (depositMarginOtherToken process_env web3 account c) w) = []).
Proof.
  intros HIn Hans Ha. pose proof (lex_below_iff_power a Ha) as Hiff.
  revert HIn Hans. exec h; intros HIn Hans R; try discriminate R.
  all: repeat (destruct HIn as [<-|HIn];
               [cbn in Hans; try discriminate Hans|]);
    try contradiction.
  all: injection Hans as ->.
  all: split; intro T.
  all: first
    [ reflexivity
    | exfalso; apply T; apply Hiff; assumption
    | apply Hiff in T; congruence ].
Qed.

End TopUp.

Lemma approval_exactly_at_powers_of_ten_witness :
  (topped_up 100 ->
   length
     (sends_of "approve"
        (trace (Mock.handle hundred_allowance)
           (@depositMarginOtherToken Mock.env Mock.web3 Mock.account
              Mock.vault) 0)) = 1%nat) /\
  (~ topped_up 100 ->
   sends_of "approve"
     (trace (Mock.handle hundred_allowance)
        (@depositMarginOtherToken Mock.env Mock.web3 Mock.account
           Mock.vault) 0) = []).
Proof.
  apply (@approval_exactly_at_powers_of_ten Z (Mock.handle hundred_allowance)
           Mock.env Mock.web3 Mock.account Mock.vault 0
           (Mock.entry_at 1
              (trace (Mock.handle hundred_allowance)
                 (@depositMarginOtherToken Mock.env Mock.web3 Mock.account
                    Mock.vault) 0))
           100).
  - vm_compute. right. left. reflexivity.
  - vm_compute. reflexivity.
  - vm_compute. discriminate.
  - vm_compute. reflexivity.
Defined.

Lemma sufficient_allowance_no_approval_witness :
  sends_of "approve"
    (trace (Mock.handle large_allowance)
       (@depositMarginOtherToken Mock.env Mock.web3 Mock.account
          Mock.vault) 0) = [].
Proof.
  apply (@sufficient_allowance_no_approval Z (Mock.handle large_allowance)
           Mock.env Mock.web3 Mock.account Mock.vault 0
           (Mock.entry_at 1
              (trace (Mock.handle large_allowance)
                 (@depositMarginOtherToken Mock.env Mock.web3 Mock.account
                    Mock.vault) 0))
           (2 * 10 ^ 18)).
  - vm_compute. right. left. reflexivity.
  - vm_compute. reflexivity.
  - vm_compute. discriminate.
Defined.
